(** * Advanced Finance Tracker (app.py): the ledger, the registries and the
      aggregation engine, embedded as Rocq functions.

    Conventions of the embedding.
    - Amounts are Python floats in the source.  In the main embedding they
      are exact rationals ([Qc], canonical fractions with Leibniz equality);
      a statement made there about a sum, a difference or a quotient describes
      the one computation the code performs, with its rounding left out, and
      no statement there compares two different orders of adding the same
      amounts.  Where the order of addition is the point (the balance and the
      spending by category), module [Binary64] embeds the same helpers with
      binary64 amounts and the orders of addition NumPy and pandas use.
    - [datetime] arithmetic that leaves the range of [datetime] or of
      [timedelta] raises OverflowError; a [datetime] within the range is
      compared with a date column as pandas 2 does, whatever its year.
    - A transaction stores its date as a 'YYYY-MM-DD' string and
      [get_dataframe] parses it back with [pd.to_datetime]; the embedding keeps
      the calendar date itself and converts it to a timestamp where the code
      compares it with a [datetime].
    - [datetime.now()] is an explicit argument of the functions that read the
      clock.
    - [st.session_state] is an explicit record threaded through the mutators.
    - Python exceptions are the [Raise] branch of [result]. *)

From Stdlib Require Import ZArith QArith Qcanon String Ascii List Bool Lia.
From Stdlib Require Import Permutation Sorted.
From Stdlib Require Floats.
Set Warnings "-inexact-float".
Import ListNotations.

Close Scope Qc_scope.
Close Scope Q_scope.
Local Open Scope string_scope.
Local Open Scope list_scope.

(** ** Python: exceptions, [str.split], [list.pop], insertion-ordered [dict] *)

Inductive exn : Type :=
| KeyError (k : string)
| IndexError
| ZeroDivisionError
| OverflowError.

Inductive result (A : Type) : Type :=
| Ok (a : A)
| Raise (e : exn).

Arguments Ok {A} a.
Arguments Raise {A} e.

Definition bind {A B : Type} (c : result A) (k : A -> result B) : result B :=
  match c with
  | Ok a => k a
  | Raise e => Raise e
  end.

Notation "x <- c ;; k" := (bind c (fun x => k))
  (at level 61, c at next level, right associativity).
Notation "c ;;; k" := (bind c (fun _ => k))
  (at level 61, right associativity).

(** [s.split(sep)] for a one-character separator: never the empty list. *)
Fixpoint split (sep : ascii) (s : string) : list string :=
  match s with
  | EmptyString => [EmptyString]
  | String c s' =>
      if Ascii.eqb c sep then EmptyString :: split sep s'
      else match split sep s' with
           | piece :: pieces => String c piece :: pieces
           | [] => [String c EmptyString]
           end
  end.

(** [l[i]] for a non-negative literal index. *)
Definition getitem {A : Type} (l : list A) (i : nat) : result A :=
  match nth_error l i with
  | Some x => Ok x
  | None => Raise IndexError
  end.

(** [l.pop(i)]: a negative index counts from the end; outside
    [-len(l) .. len(l)-1] it raises IndexError and the list is untouched.
    The second component is the list after the call. *)
Definition pop {A : Type} (l : list A) (i : Z) : result A * list A :=
  let n := Z.of_nat (List.length l) in
  let j := if (i <? 0)%Z then (i + n)%Z else i in
  if ((j <? 0) || (n <=? j))%Z then (Raise IndexError, l)
  else match nth_error l (Z.to_nat j) with
       | Some x => (Ok x, firstn (Z.to_nat j) l ++ skipn (S (Z.to_nat j)) l)
       | None => (Raise IndexError, l)
       end.

(** A [dict] with string keys, in insertion order. *)
Definition dict (V : Type) : Type := list (string * V).

(** [d[k] = v]: an existing key keeps its position and takes the new value,
    a new key goes to the end. *)
Fixpoint dict_set {V : Type} (d : dict V) (k : string) (v : V) : dict V :=
  match d with
  | [] => [(k, v)]
  | (k', v') :: d' =>
      if String.eqb k k' then (k, v) :: d' else (k', v') :: dict_set d' k v
  end.

Fixpoint dict_lookup {V : Type} (d : dict V) (k : string) : option V :=
  match d with
  | [] => None
  | (k', v') :: d' => if String.eqb k k' then Some v' else dict_lookup d' k
  end.

(** Number of entries stored under key [k]. *)
Definition dict_count {V : Type} (d : dict V) (k : string) : nat :=
  List.length (filter (fun e => String.eqb k (fst e)) d).

(** ** Amounts *)

Definition of_int (z : Z) : Qc := Q2Qc (inject_Z z).

Definition Qceqb (x y : Qc) : bool := Qeq_bool x y.

Definition Qcltb (x y : Qc) : bool :=
  match (x ?= y)%Qc with
  | Lt => true
  | _ => false
  end.

(** [x / y] on Python numbers. *)
Definition truediv (x y : Qc) : result Qc :=
  if Qceqb y 0%Qc then Raise ZeroDivisionError else Ok (x / y)%Qc.

Definition sum (l : list Qc) : Qc := fold_right Qcplus 0%Qc l.

(** [Series.max()], [Series.min()], [Series.mean()]: [None] stands for the NaN
    pandas returns on an empty series. *)
Definition series_max (l : list Qc) : option Qc :=
  match l with
  | [] => None
  | x :: l' => Some (fold_left (fun m y => if Qcltb m y then y else m) l' x)
  end.

Definition series_min (l : list Qc) : option Qc :=
  match l with
  | [] => None
  | x :: l' => Some (fold_left (fun m y => if Qcltb y m then y else m) l' x)
  end.

Definition series_mean (l : list Qc) : option Qc :=
  match l with
  | [] => None
  | _ :: _ => Some (sum l / of_int (Z.of_nat (List.length l)))%Qc
  end.

(** ** Calendar *)

Record Date : Type := mkDate { year : Z; month : Z; day : Z }.

(** [datetime]: a date and the microseconds elapsed since its midnight. *)
Record DateTime : Type := mkDateTime { dt_date : Date; dt_micro : Z }.

Definition is_leap (y : Z) : bool :=
  ((y mod 4 =? 0) && (negb (y mod 100 =? 0) || (y mod 400 =? 0)))%Z.

Definition days_before_year (y : Z) : Z :=
  let p := (y - 1)%Z in (p * 365 + p / 4 - p / 100 + p / 400)%Z.

Definition days_before_month (y m : Z) : Z :=
  (nth (Z.to_nat m) [0; 0; 31; 59; 90; 120; 151; 181; 212; 243; 273; 304; 334] 0
   + (if (2 <? m) && is_leap y then 1 else 0))%Z.

(** [date.toordinal()]: 0001-01-01 is day 1. *)
Definition toordinal (d : Date) : Z :=
  (days_before_year (year d) + days_before_month (year d) (month d) + day d)%Z.

Definition usec_per_day : Z := 86400000000.

(** Microseconds since the midnight that starts day 0. *)
Definition timestamp (t : DateTime) : Z :=
  (toordinal (dt_date t) * usec_per_day + dt_micro t)%Z.

(** [pd.to_datetime] of a stored date: that date at midnight. *)
Definition to_datetime (d : Date) : DateTime := mkDateTime d 0.

(** The instant [n] days before [t], as a timestamp, range checks aside. *)
Definition shifted (t : DateTime) (n : Z) : Z :=
  (timestamp t - n * usec_per_day)%Z.

(** [timedelta.max.days], and the timestamps of [datetime.min]
    (0001-01-01 00:00:00) and [datetime.max] (9999-12-31 23:59:59.999999). *)
Definition timedelta_max_days : Z := 999999999.
Definition min_timestamp : Z := (1 * usec_per_day)%Z.
Definition max_timestamp : Z := (3652059 * usec_per_day + (usec_per_day - 1))%Z.

(** [t - timedelta(days=n)], as a timestamp.  [timedelta(days=n)] raises
    OverflowError when the magnitude of [n] exceeds 999999999, and the
    subtraction raises it when the result is not a [datetime] of the years
    1 to 9999. *)
Definition minus_days (t : DateTime) (n : Z) : result Z :=
  if (timedelta_max_days <? Z.abs n)%Z then Raise OverflowError
  else if ((shifted t n <? min_timestamp) || (max_timestamp <? shifted t n))%Z
       then Raise OverflowError
       else Ok (shifted t n).

(** A calendar month, as [strftime('%Y-%m')] and [to_period('M')] name it. *)
Definition Period : Type := (Z * Z)%type.

Definition to_period (d : Date) : Period := (year d, month d).

Definition period_eqb (p q : Period) : bool :=
  ((fst p =? fst q) && (snd p =? snd q))%Z.

(** Order of [datetime.date] values: year, then month, then day. *)
Definition date_compare (d1 d2 : Date) : comparison :=
  match (year d1 ?= year d2)%Z with
  | Eq => match (month d1 ?= month d2)%Z with
          | Eq => (day d1 ?= day d2)%Z
          | c => c
          end
  | c => c
  end.

(** ** Records and session state *)

Record Transaction : Type := mkTransaction {
  tx_date : Date;
  tx_category : string;
  tx_amount : Qc;
  tx_type : string;
  tx_description : string;
  tx_tags : list string;
  tx_id : nat
}.

Record Goal : Type := mkGoal {
  goal_name : string;
  goal_target : Qc;
  goal_deadline : Date;
  goal_category : string;
  goal_created : Date
}.

Record Recurring : Type := mkRecurring {
  rec_category : string;
  rec_amount : Qc;
  rec_frequency : string;
  rec_type : string;
  rec_active : bool
}.

Record SessionState : Type := mkSession {
  transactions : list Transaction;
  budgets : dict Qc;
  goals : list Goal;
  recurring : list Recurring
}.

(** The state after the four [if ... not in st.session_state] initialisers. *)
Definition initial_state : SessionState := mkSession [] [] [] [].

Definition add_transaction (date : Date) (category : string) (amount : Qc)
    (transaction_type description : string) (tags : list string)
    (st : SessionState) : SessionState :=
  let transaction :=
    mkTransaction date category amount transaction_type description tags
                  (List.length (transactions st)) in
  mkSession (transactions st ++ [transaction]) (budgets st) (goals st)
            (recurring st).

Definition add_budget (category : string) (amount : Qc) (month : string)
    (st : SessionState) : SessionState :=
  let key := (category ++ "_" ++ month)%string in
  mkSession (transactions st) (dict_set (budgets st) key amount) (goals st)
            (recurring st).

Definition add_goal (now : DateTime) (goal_name : string) (target_amount : Qc)
    (deadline : Date) (category : string) (st : SessionState) : SessionState :=
  let goal := mkGoal goal_name target_amount deadline category (dt_date now) in
  mkSession (transactions st) (budgets st) (goals st ++ [goal]) (recurring st).

Definition add_recurring (category : string) (amount : Qc)
    (frequency transaction_type : string) (st : SessionState) : SessionState :=
  let rec := mkRecurring category amount frequency transaction_type true in
  mkSession (transactions st) (budgets st) (goals st) (recurring st ++ [rec]).

(** The delete buttons of the Goals and Recurring pages:
    [st.session_state.goals.pop(idx)] and [st.session_state.recurring.pop(idx)]. *)
Definition delete_goal (idx : Z) (st : SessionState) : result Goal * SessionState :=
  let '(r, goals') := pop (goals st) idx in
  (r, mkSession (transactions st) (budgets st) goals' (recurring st)).

Definition delete_rec (idx : Z) (st : SessionState)
    : result Recurring * SessionState :=
  let '(r, recurring') := pop (recurring st) idx in
  (r, mkSession (transactions st) (budgets st) (goals st) recurring').

(** ** pandas: frames, boolean selection, [groupby(...).sum()], [nlargest] *)

(** A frame: its column labels and its rows.  A row of the ledger frame is a
    transaction; a label that is not among [columns] cannot be read. *)
Record DataFrame : Type := mkFrame {
  columns : list string;
  rows : list Transaction
}.

(** [df.empty]: some axis has length 0. *)
Definition empty (df : DataFrame) : bool :=
  match rows df, columns df with
  | [], _ => true
  | _, [] => true
  | _, _ => false
  end.

(** [df[label]] raises KeyError for an unknown label. *)
Definition column (df : DataFrame) (label : string) : result unit :=
  if existsb (String.eqb label) (columns df) then Ok tt
  else Raise (KeyError label).

(** [df[mask]]: the rows where the mask holds, same columns. *)
Definition select (p : Transaction -> bool) (df : DataFrame) : DataFrame :=
  mkFrame (columns df) (filter p (rows df)).

(** Grouped sums, keys in ascending order ([groupby] sorts its keys). *)
Section GroupBy.
Context {K : Type} (cmp : K -> K -> comparison).

Definition Series : Type := list (K * Qc).

Fixpoint group_add (k : K) (a : Qc) (g : Series) : Series :=
  match g with
  | [] => [(k, a)]
  | (k', s) :: g' =>
      match cmp k k' with
      | Lt => (k, a) :: g
      | Eq => (k', (s + a)%Qc) :: g'
      | Gt => (k', s) :: group_add k a g'
      end
  end.

Definition groupby_sum {R : Type} (key : R -> K) (val : R -> Qc)
    (l : list R) : Series :=
  fold_left (fun g r => group_add (key r) (val r) g) l [].

(** [series.get(k, default)] *)
Fixpoint series_get (g : Series) (k : K) (default : Qc) : Qc :=
  match g with
  | [] => default
  | (k', s) :: g' =>
      match cmp k k' with
      | Eq => s
      | _ => series_get g' k default
      end
  end.
End GroupBy.

(** Key order of [groupby(['date', 'type'])]: date first, then type. *)
Definition date_type_compare (k1 k2 : Date * string) : comparison :=
  match date_compare (fst k1) (fst k2) with
  | Eq => String.compare (snd k1) (snd k2)
  | c => c
  end.

(** [unique()]: distinct values in order of first appearance. *)
Fixpoint unique (l : list string) : list string :=
  match l with
  | [] => []
  | x :: l' => x :: filter (fun y => negb (String.eqb x y)) (unique l')
  end.

(** Rows by descending amount, rows of equal amount in their original order. *)
Fixpoint insert_desc (t : Transaction) (l : list Transaction) : list Transaction :=
  match l with
  | [] => [t]
  | u :: l' =>
      if Qcltb (tx_amount t) (tx_amount u) then u :: insert_desc t l'
      else t :: l
  end.

Definition sort_desc (l : list Transaction) : list Transaction :=
  fold_right insert_desc [] l.

(** [df.nlargest(n, 'amount')], as pandas documents it for the default
    keep='first': the first [n] rows in descending order of the column, the
    earlier row first among equal values.  [n] is a row count. *)
Definition nlargest (n : nat) (df : DataFrame) : result DataFrame :=
  column df "amount" ;;;
  Ok (mkFrame (columns df) (firstn n (sort_desc (rows df)))).

(** ** The helper functions of app.py *)

Definition get_dataframe (st : SessionState) : DataFrame :=
  match transactions st with
  | [] => mkFrame ["date"; "category"; "amount"; "type"; "description"; "tags"] []
  | txs =>
      mkFrame ["date"; "category"; "amount"; "type"; "description"; "tags"; "id"]
              txs
  end.

Definition amounts (df : DataFrame) : list Qc := map tx_amount (rows df).

(** [df[df['type'] == kind]['amount'].sum()] *)
Definition sum_of_type (df : DataFrame) (kind : string) : result Qc :=
  column df "type" ;;;
  let sel := select (fun t => String.eqb (tx_type t) kind) df in
  column sel "amount" ;;;
  Ok (sum (amounts sel)).

Definition calculate_balance (st : SessionState) : result Qc :=
  let df := get_dataframe st in
  if empty df then Ok 0%Qc
  else
    income <- sum_of_type df "Income" ;;
    expenses <- sum_of_type df "Expense" ;;
    Ok (income - expenses)%Qc.

Definition get_spending_by_category (df : DataFrame) (month : option Period)
    : result (Series (K := string)) :=
  column df "type" ;;;
  let expense_df := select (fun t => String.eqb (tx_type t) "Expense") df in
  expense_df <-
    match month with
    | Some m =>
        if negb (empty expense_df) then
          column expense_df "date" ;;;
          Ok (select (fun t => period_eqb (to_period (tx_date t)) m) expense_df)
        else Ok expense_df
    | None => Ok expense_df
    end ;;
  if negb (empty expense_df) then
    column expense_df "category" ;;;
    column expense_df "amount" ;;;
    Ok (groupby_sum String.compare tx_category tx_amount (rows expense_df))
  else Ok [].

Record Alert : Type := mkAlert {
  alert_category : string;
  alert_budget : Qc;
  alert_spent : Qc;
  alert_over : Qc
}.

(** One turn of the loop of [check_budget_alerts]. *)
Definition alert_step (df : DataFrame) (alerts : list Alert)
    (item : string * Qc) : result (list Alert) :=
  let '(budget_key, budget_amount) := item in
  category <- getitem (split "_" budget_key) 0 ;;
  spending_by_category <- get_spending_by_category df None ;;
  let spending := series_get String.compare spending_by_category category 0%Qc in
  if Qcltb budget_amount spending then
    Ok (alerts ++ [mkAlert category budget_amount spending
                           (spending - budget_amount)%Qc])
  else Ok alerts.

(** [for x in xs: acc = body(acc, x)], stopping at the first exception. *)
Fixpoint for_each {A B : Type} (body : B -> A -> result B) (xs : list A)
    (acc : B) : result B :=
  match xs with
  | [] => Ok acc
  | x :: xs' => acc' <- body acc x ;; for_each body xs' acc'
  end.

Definition check_budget_alerts (now : DateTime) (st : SessionState)
    (df : DataFrame) : result (list Alert) :=
  let current_month := to_period (dt_date now) in
  for_each (alert_step df) (budgets st) [].

Record TrendRow : Type := mkTrendRow {
  trend_date : Date;
  trend_type : string;
  trend_amount : Qc
}.

(** [None] is the value the source returns when there is nothing to plot. *)
Definition get_trend_data (now : DateTime) (df : DataFrame) (days : Z)
    : result (option (list TrendRow)) :=
  if empty df then Ok None
  else
    cutoff_date <- minus_days now days ;;
    column df "date" ;;;
    let df_recent :=
      select (fun t => (cutoff_date <=? timestamp (to_datetime (tx_date t)))%Z) df in
    if empty df_recent then Ok None
    else
      column df_recent "date" ;;;
      column df_recent "type" ;;;
      column df_recent "amount" ;;;
      let trend :=
        groupby_sum date_type_compare (fun t => (tx_date t, tx_type t)) tx_amount
                    (rows df_recent) in
      Ok (Some (map (fun e => mkTrendRow (fst (fst e)) (snd (fst e)) (snd e)) trend)).

Record CategoryStats : Type := mkStats {
  stat_count : nat;
  stat_total : Qc;
  stat_average : option Qc;
  stat_max : option Qc;
  stat_min : option Qc
}.

Definition stats_step (df : DataFrame) (stats : dict CategoryStats)
    (category : string) : result (dict CategoryStats) :=
  column df "category" ;;;
  let cat_df := select (fun t => String.eqb (tx_category t) category) df in
  column cat_df "amount" ;;;
  let a := amounts cat_df in
  Ok (dict_set stats category
        (mkStats (List.length (rows cat_df)) (sum a) (series_mean a)
                 (series_max a) (series_min a))).

Definition calculate_category_stats (df : DataFrame)
    : result (dict CategoryStats) :=
  if empty df then Ok []
  else
    column df "category" ;;;
    for_each (stats_step df) (unique (map tx_category (rows df))) [].

(** The five columns kept by [get_top_transactions]. *)
Record TopRow : Type := mkTopRow {
  top_date : Date;
  top_category : string;
  top_amount : Qc;
  top_type : string;
  top_description : string
}.

Definition project_top (t : Transaction) : TopRow :=
  mkTopRow (tx_date t) (tx_category t) (tx_amount t) (tx_type t)
           (tx_description t).

(** [frame[['date', 'category', 'amount', 'type', 'description']]] *)
Definition project_columns (df : DataFrame) : result (list TopRow) :=
  for_each (fun (_ : unit) label => column df label)
           ["date"; "category"; "amount"; "type"; "description"] tt ;;;
  Ok (map project_top (rows df)).

(** What [get_top_transactions] hands back: the frame it was given (the
    [df.empty] branch), or the five selected columns of the largest rows. *)
Inductive TopFrame : Type :=
| Unchanged (df : DataFrame)
| Selected (top : list TopRow).

Definition get_top_transactions (df : DataFrame) (n : nat) : result TopFrame :=
  if empty df then Ok (Unchanged df)
  else
    top <- nlargest n df ;;
    selected <- project_columns top ;;
    Ok (Selected selected).

(** The records a [TopFrame] shows. *)
Definition top_rows (f : TopFrame) : list TopRow :=
  match f with
  | Unchanged df => map project_top (rows df)
  | Selected top => top
  end.

(** ** The Budgets and Goals pages: the values they compute *)

(** [(spending / budget_amount * 100) if budget_amount > 0 else 0], and the same
    expression with [goal['target']] on the Goals page. *)
Definition percentage (spending denominator : Qc) : result Qc :=
  if Qcltb 0%Qc denominator then
    ratio <- truediv spending denominator ;;
    Ok (ratio * of_int 100)%Qc
  else Ok 0%Qc.

Record BudgetRow : Type := mkBudgetRow {
  row_category : string;
  row_budget : Qc;
  row_spent : Qc;
  row_remaining : Qc;
  row_usage : Qc
}.

(** One turn of the "Budget Overview" loop. *)
Definition overview_step (df : DataFrame) (budget_data : list BudgetRow)
    (item : string * Qc) : result (list BudgetRow) :=
  let '(budget_key, budget_amount) := item in
  category <- getitem (split "_" budget_key) 0 ;;
  spending_by_category <- get_spending_by_category df None ;;
  let spending := series_get String.compare spending_by_category category 0%Qc in
  let remaining := (budget_amount - spending)%Qc in
  pct <- percentage spending budget_amount ;;
  Ok (budget_data ++ [mkBudgetRow category budget_amount spending remaining pct]).

(** [None]: the page shows "No budgets set yet". *)
Definition budget_overview (st : SessionState)
    : result (option (list BudgetRow)) :=
  match budgets st with
  | [] => Ok None
  | items =>
      let df := get_dataframe st in
      budget_data <- for_each (overview_step df) items [] ;;
      Ok (Some budget_data)
  end.




(** ** Ledger inputs, for statements about sequences of appends *)

(** The arguments of one [add_transaction] call. *)
Record Entry : Type := mkEntry {
  entry_date : Date;
  entry_category : string;
  entry_amount : Qc;
  entry_type : string;
  entry_description : string;
  entry_tags : list string
}.

Definition append (st : SessionState) (e : Entry) : SessionState :=
  add_transaction (entry_date e) (entry_category e) (entry_amount e)
                  (entry_type e) (entry_description e) (entry_tags e) st.

Definition append_all (es : list Entry) (st : SessionState) : SessionState :=
  fold_left append es st.

Definition is_income (t : Transaction) : bool := String.eqb (tx_type t) "Income".
Definition is_expense (t : Transaction) : bool := String.eqb (tx_type t) "Expense".

Definition total_of (kind : string) (txs : list Transaction) : Qc :=
  sum (map tx_amount (filter (fun t => String.eqb (tx_type t) kind) txs)).

Definition entry_total_of (kind : string) (es : list Entry) : Qc :=
  sum (map entry_amount (filter (fun e => String.eqb (entry_type e) kind) es)).

(** ** Concrete data used in examples *)

Definition jan (d : Z) : Date := mkDate 2025 1 d.

(** The ledger [ {Expense, Food, 50}, {Expense, Food, 30}, {Income, Salary, 1000} ]. *)
Definition scenario : list Entry :=
  [ mkEntry (jan 10) "Food" (of_int 50) "Expense" "lunch" [];
    mkEntry (jan 11) "Food" (of_int 30) "Expense" "dinner" [];
    mkEntry (jan 12) "Salary" (of_int 1000) "Income" "pay" [] ].

(** ** Orders given by a three-way comparison *)

Record total_order {K : Type} (cmp : K -> K -> comparison) : Prop := {
  cmp_eq : forall a b, cmp a b = Eq <-> a = b;
  cmp_antisym : forall a b, cmp a b = CompOpp (cmp b a);
  cmp_trans : forall a b c, cmp a b = Lt -> cmp b c = Lt -> cmp a c = Lt
}.

(** First component first, the second one breaks ties. *)
Definition lex_compare {A B : Type} (cmpA : A -> A -> comparison)
    (cmpB : B -> B -> comparison) (x y : A * B) : comparison :=
  match cmpA (fst x) (fst y) with
  | Eq => cmpB (snd x) (snd y)
  | c => c
  end.

(** Keys strictly ascending. *)
Definition ascending {K : Type} (cmp : K -> K -> comparison) (g : Series (K := K))
    : Prop :=
  StronglySorted (fun e1 e2 => cmp (fst e1) (fst e2) = Lt) g.

(** The rows of [l] grouped under key [k]. *)
Definition group_of {K R : Type} (cmp : K -> K -> comparison) (key : R -> K)
    (k : K) (l : list R) : list R :=
  filter (fun r => match cmp (key r) k with Eq => true | _ => false end) l.

(** ** Reference quantities *)

(** Total of the Expense records of category [c], over the whole ledger. *)
Definition category_spending (txs : list Transaction) (c : string) : Qc :=
  sum (map tx_amount
         (filter (fun t => String.eqb (tx_category t) c) (filter is_expense txs))).

(** Total of the Expense records of category [c] dated in month [m]. *)
Definition category_spending_in (m : Period) (txs : list Transaction) (c : string)
    : Qc :=
  category_spending
    (filter (fun t => period_eqb (to_period (tx_date t)) m) txs) c.

(** The piece of a budget key before its first underscore. *)
Definition first_piece (key : string) : string := hd "" (split "_" key).

(** A ledger with income only. *)
Definition income_only : SessionState :=
  append initial_state (mkEntry (jan 12) "Salary" (of_int 1000) "Income" "pay" []).

(** [ch in s] *)
Fixpoint contains (ch : ascii) (s : string) : bool :=
  match s with
  | EmptyString => false
  | String c s' => Ascii.eqb c ch || contains ch s'
  end.

(** The alert one budget entry gives rise to, if any, over the ledger [txs]. *)
Definition alert_for (txs : list Transaction) (item : string * Qc) : list Alert :=
  let category := first_piece (fst item) in
  let spending := category_spending txs category in
  if Qcltb (snd item) spending then
    [mkAlert category (snd item) spending (spending - snd item)%Qc]
  else [].

(** The value of [percentage] when it does not raise. *)
Definition guarded_ratio (spending denominator : Qc) : Qc :=
  if Qcltb 0%Qc denominator then (spending / denominator * of_int 100)%Qc
  else 0%Qc.

(** The overview row of one budget entry over the ledger [txs]. *)
Definition row_for (txs : list Transaction) (item : string * Qc) : BudgetRow :=
  let category := first_piece (fst item) in
  let spending := category_spending txs category in
  mkBudgetRow category (snd item) spending (snd item - spending)%Qc
              (guarded_ratio spending (snd item)).


(** A Food expense of 80 in December 2024, a Food budget of 60 keyed
    2025-01, and a clock in January 2025. *)
Definition december_ledger : SessionState :=
  add_budget "Food" (of_int 60) "2025-01"
    (append initial_state
       (mkEntry (mkDate 2024 12 15) "Food" (of_int 80) "Expense" "groceries" [])).

Definition january_noon : DateTime := mkDateTime (jan 20) 43200000000.

(** The same budget with the Food expenses of [scenario], all in January 2025. *)
Definition january_ledger : SessionState :=
  add_budget "Food" (of_int 60) "2025-01" (append_all scenario initial_state).

(** A ledger whose expenses fall under "Fast" and under "Fast_Food". *)
Definition fast_food_ledger : SessionState :=
  append_all
    [ mkEntry (jan 5) "Fast" (of_int 70) "Expense" "courier" [];
      mkEntry (jan 6) "Fast_Food" (of_int 10) "Expense" "burger" [] ]
    initial_state.

(** A sequence of [add_budget] calls, given as (category, amount, month). *)
Definition set_all (ops : list (string * Qc * string)) (st : SessionState)
    : SessionState :=
  fold_left (fun s op => add_budget (fst (fst op)) (snd (fst op)) (snd op) s) ops st.

(** Three goals and three recurring templates. *)
Definition three_goals : SessionState :=
  add_goal january_noon "Bike" (of_int 300) (mkDate 2025 9 1) "Vehicle"
    (add_goal january_noon "Course" (of_int 200) (mkDate 2025 6 1) "Education"
       (add_goal january_noon "Trip" (of_int 900) (mkDate 2025 7 1) "Vacation"
          initial_state)).


(** Amounts in non-increasing order. *)
Definition descending (l : list Transaction) : Prop :=
  StronglySorted (fun t u => (tx_amount u <= tx_amount t)%Qc) l.

(** The rows of [l] whose amount is [a], in the order of [l]. *)
Definition with_amount (a : Qc) (l : list Transaction) : list Transaction :=
  filter (fun t => Qceqb (tx_amount t) a) l.

(** The rows [get_trend_data] keeps: dated at or after [now - days]. *)
Definition recent (now : DateTime) (days : Z) (txs : list Transaction)
    : list Transaction :=
  filter (fun t => (shifted now days <=? timestamp (to_datetime (tx_date t)))%Z)
         txs.

(** The rows dated within [now - days, now]: the window bounded on both sides. *)
Definition within_window (now : DateTime) (days : Z) (txs : list Transaction)
    : list Transaction :=
  filter (fun t => (shifted now days <=? timestamp (to_datetime (tx_date t)))%Z
                   && (timestamp (to_datetime (tx_date t)) <=? timestamp now)%Z)
         txs.

Definition trend_key (t : Transaction) : Date * string := (tx_date t, tx_type t).

Definition trend_row (e : (Date * string) * Qc) : TrendRow :=
  mkTrendRow (fst (fst e)) (snd (fst e)) (snd e).

(** One expense dated 10 February 2025, three weeks after [january_noon]. *)
Definition future_ledger : SessionState :=
  append initial_state
    (mkEntry (mkDate 2025 2 10) "Food" (of_int 25) "Expense" "booked ahead" []).

(** ** Further reference quantities *)

(** The record [add_transaction] builds from entry [e] when the ledger holds
    [k] records. *)
Definition record_of (k : nat) (e : Entry) : Transaction :=
  mkTransaction (entry_date e) (entry_category e) (entry_amount e)
                (entry_type e) (entry_description e) (entry_tags e) k.

(** The records of successive appends, the first one numbered [k]. *)
Fixpoint numbered (k : nat) (es : list Entry) : list Transaction :=
  match es with
  | [] => []
  | e :: es' => record_of k e :: numbered (S k) es'
  end.

(** What a transaction was entered as. *)
Definition entry_of (t : Transaction) : Entry :=
  mkEntry (tx_date t) (tx_category t) (tx_amount t) (tx_type t)
          (tx_description t) (tx_tags t).

(** Every record carries its position as id. *)
Definition sequential_ids (txs : list Transaction) : Prop :=
  map tx_id txs = seq 0 (List.length txs).

(** Income minus expenses, as a number. *)
Definition net_of (txs : list Transaction) : Qc :=
  (total_of "Income" txs - total_of "Expense" txs)%Qc.

(** The rows of category [c], whatever their type. *)
Definition rows_of_category (txs : list Transaction) (c : string)
    : list Transaction :=
  filter (fun t => String.eqb (tx_category t) c) txs.

(** The statistics [calculate_category_stats] stores for category [c]. *)
Definition stats_of (txs : list Transaction) (c : string) : CategoryStats :=
  let a := map tx_amount (rows_of_category txs c) in
  mkStats (List.length (rows_of_category txs c)) (sum a) (series_mean a)
          (series_max a) (series_min a).

(** Sum over a list in a monoid [(M, zero, plus)]. *)
Definition msum {M : Type} (zero : M) (plus : M -> M -> M) (l : list M) : M :=
  fold_right plus zero l.

(** The Expense records dated in month [m]. *)
Definition expenses_in (m : Period) (txs : list Transaction) : list Transaction :=
  filter (fun t => period_eqb (to_period (tx_date t)) m) (filter is_expense txs).

(** Two budget entries that name the same category piece and amount. *)
Definition same_budget (e1 e2 : string * Qc) : Prop :=
  first_piece (fst e1) = first_piece (fst e2) /\ snd e1 = snd e2.

(** What an alert and an overview row say about their budget entry. *)
Definition alert_summary (a : Alert) : string * Qc * Qc :=
  (alert_category a, alert_budget a, alert_spent a).

Definition row_summary (r : BudgetRow) : string * Qc * Qc :=
  (row_category r, row_budget r, row_spent r).

Definition overspent (r : BudgetRow) : bool := Qcltb (row_remaining r) 0%Qc.

(** ** The Dashboard and Analytics pages: the values they compute *)

Record Metrics : Type := mkMetrics {
  metric_balance : Qc;
  metric_income : Qc;
  metric_expenses : Qc;
  metric_avg : option Qc
}.

(** The four key metrics of the Dashboard, in the order the page computes
    them.  The average is [df['amount'].mean()], or 0 on the empty frame. *)
Definition dashboard_metrics (st : SessionState) : result Metrics :=
  let df := get_dataframe st in
  balance <- calculate_balance st ;;
  income <- (if negb (empty df) then sum_of_type df "Income" else Ok 0%Qc) ;;
  expenses <- (if negb (empty df) then sum_of_type df "Expense" else Ok 0%Qc) ;;
  avg_transaction <-
    (if negb (empty df) then
       column df "amount" ;;; Ok (series_mean (amounts df))
     else Ok (Some 0%Qc)) ;;
  Ok (mkMetrics balance income expenses avg_transaction).

(** [Series.min()] and [Series.max()] of a date column, by timestamp; [None]
    stands for the NaT of an empty column. *)
Definition earlier (d1 d2 : Date) : Date :=
  if (timestamp (to_datetime d2) <? timestamp (to_datetime d1))%Z then d2 else d1.

Definition later (d1 d2 : Date) : Date :=
  if (timestamp (to_datetime d1) <? timestamp (to_datetime d2))%Z then d2 else d1.

Definition date_min (l : list Date) : option Date :=
  match l with
  | [] => None
  | d :: l' => Some (fold_left earlier l' d)
  end.

Definition date_max (l : list Date) : option Date :=
  match l with
  | [] => None
  | d :: l' => Some (fold_left later l' d)
  end.

(** The values the two date inputs of the Analytics page start with. *)
Definition default_range (st : SessionState) : result (option (Date * Date)) :=
  let df := get_dataframe st in
  if negb (empty df) then
    column df "date" ;;;
    match date_min (map tx_date (rows df)), date_max (map tx_date (rows df)) with
    | Some start_date, Some end_date => Ok (Some (start_date, end_date))
    | _, _ => Ok None
    end
  else Ok None.

Record RangeTotals : Type := mkRangeTotals {
  total_spent : Qc;
  total_earned : Qc;
  net : Qc
}.

(** [mask] of the Analytics page. *)
Definition in_range (start_date end_date : Date) (t : Transaction) : bool :=
  ((timestamp (to_datetime start_date) <=? timestamp (to_datetime (tx_date t)))
   && (timestamp (to_datetime (tx_date t)) <=? timestamp (to_datetime end_date)))%Z.

(** The three metrics of the Analytics page for the chosen range; [None] when
    the page shows no metrics (empty ledger, or no record in the range). *)
Definition analytics_totals (st : SessionState) (start_date end_date : Date)
    : result (option RangeTotals) :=
  let df := get_dataframe st in
  if negb (empty df) then
    column df "date" ;;;
    let range_df := select (in_range start_date end_date) df in
    if negb (empty range_df) then
      total_spent <- sum_of_type range_df "Expense" ;;
      total_earned <- sum_of_type range_df "Income" ;;
      Ok (Some (mkRangeTotals total_spent total_earned
                              (total_earned - total_spent)%Qc))
    else Ok None
  else Ok None.

(** [daily_summary] of the Dashboard: the amount total of each type.  [None]
    when the page shows its "add your first transaction" note instead. *)
Definition income_vs_expenses (st : SessionState)
    : result (option (Series (K := string))) :=
  let df := get_dataframe st in
  if negb (empty df) then
    column df "type" ;;;
    column df "amount" ;;;
    Ok (Some (groupby_sum String.compare tx_type tx_amount (rows df)))
  else Ok None.

Definition day_names : list string :=
  ["Monday"; "Tuesday"; "Wednesday"; "Thursday"; "Friday"; "Saturday"; "Sunday"].

(** [date.weekday()] is [(toordinal() + 6) % 7], Monday being 0; [day_name()]
    is its English name. *)
Definition day_name (d : Date) : string :=
  nth (Z.to_nat ((toordinal d + 6) mod 7)) day_names "".

(** [dow_spending] of the Insights page: the Expense total of each weekday. *)
Definition dow_spending (st : SessionState)
    : result (option (Series (K := string))) :=
  let df := get_dataframe st in
  if negb (empty df) then
    column df "date" ;;;
    column df "type" ;;;
    let expense_df := select (fun t => String.eqb (tx_type t) "Expense") df in
    column expense_df "amount" ;;;
    Ok (Some (groupby_sum String.compare (fun t => day_name (tx_date t)) tx_amount
                (rows expense_df)))
  else Ok None.

(** Whether [now - timedelta(days=days)] is a [datetime]. *)
Definition in_datetime_range (now : DateTime) (days : Z) : bool :=
  (negb (timedelta_max_days <? Z.abs days)
   && negb ((shifted now days <? min_timestamp)
            || (max_timestamp <? shifted now days)))%Z.

(** Row [r] of a top-transactions frame shows transaction [t]: its five
    columns hold the date, category, amount, type and description of [t]. *)
Definition shows (r : TopRow) (t : Transaction) : Prop :=
  top_date r = tx_date t
  /\ top_category r = tx_category t
  /\ top_amount r = tx_amount t
  /\ top_type r = tx_type t
  /\ top_description r = tx_description t.

(** ** Sums with the rounding of the machine

    Everything above adds and subtracts amounts exactly.  The source stores
    [float(amount)] and pandas adds binary64 values, rounding after every
    operation, so which values are added first matters.  The module below
    embeds the two helpers whose claims depend on that, with the orders of
    addition NumPy and pandas use:
    - [Series.sum()] is NumPy's pairwise summation: fewer than 8 values are
      added left to right; up to 128 values are added into 8 interleaved
      partial sums that are then combined in pairs, the remaining values being
      added last; longer arrays are split in two halves summed separately.
    - [groupby(...).sum()] adds the values of each group in row order with
      Kahan's compensated summation.
    The sign of a zero result is not tracked. *)

Module Binary64.
Import Floats.
Local Open Scope float_scope.

Record Transaction : Type := mkTransaction {
  tx_date : Date;
  tx_category : string;
  tx_amount : float;
  tx_type : string;
  tx_description : string;
  tx_tags : list string;
  tx_id : nat
}.

Record DataFrame : Type := mkFrame {
  columns : list string;
  rows : list Transaction
}.

Definition empty (df : DataFrame) : bool :=
  match rows df, columns df with
  | [], _ => true
  | _, [] => true
  | _, _ => false
  end.

Definition column (df : DataFrame) (label : string) : result unit :=
  if existsb (String.eqb label) (columns df) then Ok tt
  else Raise (KeyError label).

Definition select (p : Transaction -> bool) (df : DataFrame) : DataFrame :=
  mkFrame (columns df) (filter p (rows df)).

(** One pass of the unrolled loop: the next 8 values, each added to its own
    partial sum. *)
Definition add8 (r block : list float) : list float :=
  map (fun p => fst p + snd p) (combine r block).

Fixpoint add_blocks (k : nat) (r a : list float) : list float * list float :=
  match k with
  | O => (r, a)
  | S k' => add_blocks k' (add8 r (firstn 8 a)) (skipn 8 a)
  end.

Definition reduce8 (r : list float) : float :=
  match r with
  | [r0; r1; r2; r3; r4; r5; r6; r7] =>
      ((r0 + r1) + (r2 + r3)) + ((r4 + r5) + (r6 + r7))
  | _ => fold_left PrimFloat.add r 0
  end.

(** NumPy's [pairwise_sum]; [fuel] bounds the depth of the halving and the
    length of the array is always enough. *)
Fixpoint pairwise_sum (fuel : nat) (a : list float) : float :=
  let n := List.length a in
  if (n <? 8)%nat then fold_left PrimFloat.add a 0
  else if (n <=? 128)%nat then
    let '(r, rest) :=
      add_blocks ((n - n mod 8) / 8 - 1)%nat (firstn 8 a) (skipn 8 a) in
    fold_left PrimFloat.add rest (reduce8 r)
  else
    match fuel with
    | O => fold_left PrimFloat.add a 0
    | S fuel' =>
        let n2 := (n / 2 - (n / 2) mod 8)%nat in
        pairwise_sum fuel' (firstn n2 a) + pairwise_sum fuel' (skipn n2 a)
    end.

(** [Series.sum()]: the additive identity plus the pairwise sum. *)
Definition np_sum (a : list float) : float :=
  0 + pairwise_sum (List.length a) a.

(** One row of pandas' [group_sum]: the running sum and its compensation. *)
Definition kahan_step (acc : float * float) (val : float) : float * float :=
  let '(sumx, compensation) := acc in
  let y := val - compensation in
  let t := sumx + y in
  let c := t - sumx - y in
  (t, if PrimFloat.eqb c c then c else 0).


Section GroupBy.
Context {K : Type} (cmp : K -> K -> comparison).

(** The groups met so far, keys ascending, each with its running sum and
    compensation. *)
Fixpoint group_add (k : K) (v : float) (g : list (K * (float * float)))
    : list (K * (float * float)) :=
  match g with
  | [] => [(k, kahan_step (0, 0) v)]
  | (k', acc) :: g' =>
      match cmp k k' with
      | Lt => (k, kahan_step (0, 0) v) :: g
      | Eq => (k', kahan_step acc v) :: g'
      | Gt => (k', acc) :: group_add k v g'
      end
  end.

Definition groups {R : Type} (key : R -> K) (val : R -> float) (l : list R)
    : list (K * (float * float)) :=
  fold_left (fun g r => group_add (key r) (val r) g) l [].

Definition groupby_sum {R : Type} (key : R -> K) (val : R -> float) (l : list R)
    : list (K * float) :=
  map (fun e => (fst e, fst (snd e))) (groups key val l).

Fixpoint series_get (g : list (K * float)) (k : K) (default : float) : float :=
  match g with
  | [] => default
  | (k', s) :: g' =>
      match cmp k k' with
      | Eq => s
      | _ => series_get g' k default
      end
  end.


End GroupBy.

Definition get_dataframe (transactions : list Transaction) : DataFrame :=
  match transactions with
  | [] => mkFrame ["date"; "category"; "amount"; "type"; "description"; "tags"] []
  | txs =>
      mkFrame ["date"; "category"; "amount"; "type"; "description"; "tags"; "id"]
              txs
  end.

Definition amounts (df : DataFrame) : list float := map tx_amount (rows df).

Definition sum_of_type (df : DataFrame) (kind : string) : result float :=
  column df "type" ;;;
  let sel := select (fun t => String.eqb (tx_type t) kind) df in
  column sel "amount" ;;;
  Ok (np_sum (amounts sel)).

Definition calculate_balance (transactions : list Transaction) : result float :=
  let df := get_dataframe transactions in
  if empty df then Ok 0
  else
    income <- sum_of_type df "Income" ;;
    expenses <- sum_of_type df "Expense" ;;
    Ok (income - expenses).

Definition get_spending_by_category (df : DataFrame) (month : option Period)
    : result (list (string * float)) :=
  column df "type" ;;;
  let expense_df := select (fun t => String.eqb (tx_type t) "Expense") df in
  expense_df <-
    match month with
    | Some m =>
        if negb (empty expense_df) then
          column expense_df "date" ;;;
          Ok (select (fun t => period_eqb (to_period (tx_date t)) m) expense_df)
        else Ok expense_df
    | None => Ok expense_df
    end ;;
  if negb (empty expense_df) then
    column expense_df "category" ;;;
    column expense_df "amount" ;;;
    Ok (groupby_sum String.compare tx_category tx_amount (rows expense_df))
  else Ok [].



(** A ledger entered in the given order, ids by position. *)
Fixpoint ledger (k : nat) (es : list (string * string * float))
    : list Transaction :=
  match es with
  | [] => []
  | (kind, c, a) :: es' =>
      mkTransaction (mkDate 2025 1 10) c a kind "" [] k :: ledger (S k) es'
  end.

Definition three_incomes : list Transaction :=
  ledger 0 [("Income", "Salary", 0.1); ("Income", "Salary", 0.2);
            ("Income", "Salary", 0.3)].




End Binary64.

(** * Properties *)

(** ** Amounts and the result monad *)

Lemma Qcltb_lt (x y : Qc) : Qcltb x y = true <-> (x < y)%Qc.
Proof.
  unfold Qcltb. rewrite Qclt_alt.
  destruct (x ?= y)%Qc; split; intros H; try reflexivity; discriminate.
Qed.

Lemma Qcltb_ge (x y : Qc) : Qcltb x y = false <-> (y <= x)%Qc.
Proof.
  split; intros H.
  - apply Qcnot_lt_le. intros L. apply Qcltb_lt in L. congruence.
  - destruct (Qcltb x y) eqn:E; [| reflexivity].
    apply Qcltb_lt in E. exfalso. exact (Qcle_not_lt _ _ H E).
Qed.

Lemma Qceqb_eq (x y : Qc) : Qceqb x y = true <-> x = y.
Proof.
  unfold Qceqb. rewrite Qeq_bool_iff. split.
  - apply Qc_is_canon.
  - intros ->. reflexivity.
Qed.

Lemma filter_perm {A : Type} (p : A -> bool) (l1 l2 : list A) :
  Permutation l1 l2 -> Permutation (filter p l1) (filter p l2).
Proof.
  induction 1 as [| x l l' _ IH | x y l | l l' l'' _ IH1 _ IH2]; simpl.
  - constructor.
  - destruct (p x); [constructor |]; exact IH.
  - destruct (p x), (p y); try reflexivity. constructor.
  - now transitivity (filter p l').
Qed.

(** ** The ledger frame *)

Lemma empty_get_dataframe (st : SessionState) :
  empty (get_dataframe st) = match transactions st with [] => true | _ => false end.
Proof. unfold get_dataframe. destruct (transactions st); reflexivity. Qed.

Lemma rows_get_dataframe (st : SessionState) :
  rows (get_dataframe st) = transactions st.
Proof. unfold get_dataframe. destruct (transactions st); reflexivity. Qed.

(** Every label the aggregation functions read is a column of the ledger frame. *)
Lemma column_get_dataframe (st : SessionState) (label : string) :
  In label ["date"; "category"; "amount"; "type"; "description"] ->
  column (get_dataframe st) label = Ok tt.
Proof.
  intros H. unfold get_dataframe.
  destruct (transactions st); simpl in H;
    repeat (destruct H as [<- | H]; [reflexivity |]); contradiction.
Qed.

Lemma column_select (p : Transaction -> bool) (df : DataFrame) (label : string) :
  column (select p df) label = column df label.
Proof. reflexivity. Qed.

Lemma sum_of_type_get_dataframe (st : SessionState) (kind : string) :
  sum_of_type (get_dataframe st) kind = Ok (total_of kind (transactions st)).
Proof.
  unfold sum_of_type. rewrite column_select.
  rewrite !column_get_dataframe by (simpl; tauto).
  simpl. unfold amounts, select, total_of. simpl.
  now rewrite rows_get_dataframe.
Qed.

Lemma calculate_balance_eq (st : SessionState) :
  calculate_balance st
  = Ok (total_of "Income" (transactions st) - total_of "Expense" (transactions st))%Qc.
Proof.
  unfold calculate_balance. rewrite empty_get_dataframe.
  destruct (transactions st) as [| t txs] eqn:E.
  - change (total_of "Income" []) with 0%Qc.
    change (total_of "Expense" []) with 0%Qc.
    replace (0 - 0)%Qc with 0%Qc by ring. reflexivity.
  - rewrite !sum_of_type_get_dataframe. cbn [bind]. now rewrite E.
Qed.

Lemma transactions_append_all (es : list Entry) (st : SessionState) :
  map tx_amount (filter is_income (transactions (append_all es st)))
  = map tx_amount (filter is_income (transactions st))
    ++ map entry_amount (filter (fun e => String.eqb (entry_type e) "Income") es)
  /\ map tx_amount (filter is_expense (transactions (append_all es st)))
  = map tx_amount (filter is_expense (transactions st))
    ++ map entry_amount (filter (fun e => String.eqb (entry_type e) "Expense") es).
Proof.
  revert st. induction es as [| e es IH]; intros st; simpl.
  - now rewrite !app_nil_r.
  - destruct (IH (append st e)) as [Hi He]. unfold append_all in *.
    rewrite Hi, He. cbn [append add_transaction transactions].
    rewrite !filter_app, !map_app. simpl. unfold is_income, is_expense. simpl.
    split.
    + destruct (String.eqb (entry_type e) "Income"); simpl;
        now rewrite <- app_assoc.
    + destruct (String.eqb (entry_type e) "Expense"); simpl;
        now rewrite <- app_assoc.
Qed.

Lemma total_of_append_all (kind : string) (es : list Entry) :
  kind = "Income" \/ kind = "Expense" ->
  total_of kind (transactions (append_all es initial_state)) = entry_total_of kind es.
Proof.
  destruct (transactions_append_all es initial_state) as [Hi He].
  unfold total_of, entry_total_of. intros [-> | ->].
  - unfold is_income in Hi. now rewrite Hi.
  - unfold is_expense in He. now rewrite He.
Qed.

(** ** Balance *)

Example balance_scenario :
  calculate_balance (append_all scenario initial_state) = Ok (of_int 920).
Proof. vm_compute. reflexivity. Qed.

(** ** Comparisons *)

Lemma lex_total_order {A B : Type} (cmpA : A -> A -> comparison)
    (cmpB : B -> B -> comparison) :
  total_order cmpA -> total_order cmpB -> total_order (lex_compare cmpA cmpB).
Proof.
  intros [eqA antiA transA] [eqB antiB transB]. split.
  - intros [a1 b1] [a2 b2]. unfold lex_compare. simpl. split.
    + destruct (cmpA a1 a2) eqn:E; try discriminate.
      intros H. apply eqA in E. apply eqB in H. congruence.
    + intros H. injection H as -> ->.
      rewrite (proj2 (eqA a2 a2) eq_refl). now apply eqB.
  - intros [a1 b1] [a2 b2]. unfold lex_compare. simpl.
    rewrite (antiA a1 a2). destruct (cmpA a2 a1); simpl; auto.
  - intros [a1 b1] [a2 b2] [a3 b3]. unfold lex_compare. simpl.
    destruct (cmpA a1 a2) eqn:E12; try discriminate.
    + apply eqA in E12. subst a2.
      destruct (cmpA a1 a3); try discriminate; auto. apply transB.
    + intros _. destruct (cmpA a2 a3) eqn:E23; try discriminate.
      * apply eqA in E23. subst a3. now rewrite E12.
      * now rewrite (transA _ _ _ E12 E23).
Qed.

Lemma Z_total_order : total_order Z.compare.
Proof.
  split.
  - intros a b. apply Z.compare_eq_iff.
  - intros a b. apply Z.compare_antisym.
  - intros a b c. rewrite !Z.compare_lt_iff. lia.
Qed.

Lemma ascii_total_order : total_order Ascii.compare.
Proof.
  split.
  - intros a b. split; [apply Ascii.compare_eq_iff |].
    intros ->. apply N.compare_refl.
  - apply Ascii.compare_antisym.
  - intros a b c. unfold Ascii.compare. rewrite !N.compare_lt_iff. lia.
Qed.

Lemma string_total_order : total_order String.compare.
Proof.
  destruct ascii_total_order as [eqA antiA transA]. split.
  - intros a b. split; [apply String.compare_eq_iff |].
    intros ->. induction b as [| c b IH]; simpl; [reflexivity |].
    now rewrite (proj2 (eqA c c) eq_refl).
  - apply String.compare_antisym.
  - intros a. induction a as [| x a IH]; intros [| y b] [| z c]; simpl;
      try discriminate; auto.
    destruct (Ascii.compare x y) eqn:Exy; try discriminate.
    + apply eqA in Exy. subst y.
      destruct (Ascii.compare x z); try discriminate; auto. apply IH.
    + intros _. destruct (Ascii.compare y z) eqn:Eyz; try discriminate.
      * apply eqA in Eyz. subst z. now rewrite Exy.
      * now rewrite (transA _ _ _ Exy Eyz).
Qed.

Lemma date_compare_lex (d1 d2 : Date) :
  date_compare d1 d2
  = lex_compare Z.compare (lex_compare Z.compare Z.compare)
      (year d1, (month d1, day d1)) (year d2, (month d2, day d2)).
Proof. reflexivity. Qed.

Lemma date_total_order : total_order date_compare.
Proof.
  pose proof (lex_total_order _ _ Z_total_order
                (lex_total_order _ _ Z_total_order Z_total_order)) as [E A T].
  split.
  - intros [y1 m1 d1] [y2 m2 d2]. rewrite date_compare_lex, E. simpl.
    split; intros H; congruence.
  - intros a b. rewrite !date_compare_lex. apply A.
  - intros a b c. rewrite !date_compare_lex. apply T.
Qed.

Lemma date_type_total_order : total_order date_type_compare.
Proof.
  exact (lex_total_order _ _ date_total_order string_total_order).
Qed.

Lemma cmp_refl {K : Type} (cmp : K -> K -> comparison) (k : K) :
  total_order cmp -> cmp k k = Eq.
Proof. intros [E _ _]. now apply E. Qed.

Lemma cmp_gt_lt {K : Type} (cmp : K -> K -> comparison) (a b : K) :
  total_order cmp -> cmp a b = Gt -> cmp b a = Lt.
Proof. intros [_ A _] H. rewrite A, H. reflexivity. Qed.

(** ** Grouped sums *)

Lemma sum_cons (x : Qc) (l : list Qc) : sum (x :: l) = (x + sum l)%Qc.
Proof. reflexivity. Qed.

Section GroupByFacts.
Context {K : Type} (cmp : K -> K -> comparison).
Hypothesis order : total_order cmp.

Lemma sum_group_add (k : K) (a : Qc) (g : Series) :
  sum (map snd (group_add cmp k a g)) = (sum (map snd g) + a)%Qc.
Proof.
  induction g as [| [k' s] g IH]; cbn [group_add].
  - cbn [map snd]. rewrite sum_cons. change (sum []) with 0%Qc. ring.
  - destruct (cmp k k'); cbn [map snd]; rewrite ?sum_cons.
    + ring.
    + ring.
    + rewrite IH. ring.
Qed.

Lemma keys_group_add (k : K) (a : Qc) (g : Series) (k0 : K) :
  In k0 (map fst (group_add cmp k a g)) <-> k0 = k \/ In k0 (map fst g).
Proof.
  induction g as [| [k' s] g IH]; cbn [group_add].
  - simpl. intuition.
  - destruct (cmp k k') eqn:E.
    + apply (cmp_eq cmp order) in E. subst k'. simpl. intuition.
    + simpl. intuition.
    + cbn [map fst In]. rewrite IH. intuition.
Qed.

Lemma series_get_absent (g : Series) (k : K) (d : Qc) :
  ~ In k (map fst g) -> series_get cmp g k d = d.
Proof.
  induction g as [| [k' s] g IH]; intros H; cbn [series_get]; [reflexivity |].
  destruct (cmp k k') eqn:E.
  - apply (cmp_eq cmp order) in E. subst k'. exfalso. apply H. now left.
  - apply IH. intros I. apply H. now right.
  - apply IH. intros I. apply H. now right.
Qed.

Lemma ascending_head_absent (k k' : K) (s : Qc) (g : Series) :
  ascending cmp ((k', s) :: g) -> cmp k k' = Lt ->
  ~ In k (map fst ((k', s) :: g)).
Proof.
  intros Hs Hlt Hin. apply StronglySorted_inv in Hs as [_ Hall].
  assert (Hne : cmp k k = Lt); [| rewrite (cmp_refl cmp k order) in Hne; discriminate].
  cbn [map fst In] in Hin. destruct Hin as [-> | Hin]; [exact Hlt |].
  apply in_map_iff in Hin as [[k1 s1] [<- Hin]].
  rewrite Forall_forall in Hall. specialize (Hall _ Hin). simpl in Hall.
  exact (cmp_trans cmp order _ _ _ Hlt Hall).
Qed.

Lemma series_get_group_add_same (k : K) (a : Qc) (g : Series) :
  ascending cmp g ->
  series_get cmp (group_add cmp k a g) k 0%Qc = (series_get cmp g k 0%Qc + a)%Qc.
Proof.
  induction g as [| [k' s] g IH]; intros Hs; cbn [group_add].
  - cbn [series_get]. rewrite (cmp_refl cmp k order). ring.
  - destruct (cmp k k') eqn:E.
    + cbn [series_get]. now rewrite E.
    + rewrite (series_get_absent ((k', s) :: g))
        by now apply ascending_head_absent.
      cbn [series_get]. rewrite (cmp_refl cmp k order). ring.
    + cbn [series_get]. rewrite E. apply IH.
      now apply StronglySorted_inv in Hs.
Qed.

Lemma series_get_group_add_other (k k0 : K) (a d : Qc) (g : Series) :
  k0 <> k ->
  series_get cmp (group_add cmp k a g) k0 d = series_get cmp g k0 d.
Proof.
  intros Hne. assert (Hk : cmp k0 k <> Eq).
  { intros E. now apply (cmp_eq cmp order) in E. }
  induction g as [| [k' s] g IH]; cbn [group_add].
  - cbn [series_get]. now destruct (cmp k0 k).
  - destruct (cmp k k') eqn:E.
    + apply (cmp_eq cmp order) in E. subst k'. cbn [series_get].
      now destruct (cmp k0 k).
    + cbn [series_get]. now destruct (cmp k0 k).
    + cbn [series_get]. destruct (cmp k0 k'); auto.
Qed.

Lemma ascending_group_add (k : K) (a : Qc) (g : Series) :
  ascending cmp g -> ascending cmp (group_add cmp k a g).
Proof.
  unfold ascending.
  induction g as [| [k' s] g IH]; intros Hs; cbn [group_add].
  - repeat constructor.
  - pose proof (StronglySorted_inv Hs) as [Hg Hall].
    destruct (cmp k k') eqn:E.
    + constructor; assumption.
    + constructor; [exact Hs |]. constructor; [exact E |].
      eapply Forall_impl; [| exact Hall]. intros e He. simpl in *.
      exact (cmp_trans cmp order _ _ _ E He).
    + constructor; [now apply IH |].
      rewrite Forall_forall in *. intros [k1 s1] Hin. simpl.
      assert (Hk : In k1 (map fst (group_add cmp k a g))).
      { apply in_map_iff. now exists (k1, s1). }
      apply keys_group_add in Hk as [-> | Hk].
      * now apply cmp_gt_lt.
      * apply in_map_iff in Hk as [[k2 s2] [<- Hin2]].
        exact (Hall _ Hin2).
Qed.

Section Rows.
Context {R : Type} (key : R -> K) (val : R -> Qc).

Let step (g : Series) (r : R) : Series := group_add cmp (key r) (val r) g.

Lemma fold_group_add_facts (l : list R) (g : Series) :
  ascending cmp g ->
  ascending cmp (fold_left step l g)
  /\ sum (map snd (fold_left step l g)) = (sum (map snd g) + sum (map val l))%Qc
  /\ (forall k, In k (map fst (fold_left step l g))
                <-> In k (map fst g) \/ In k (map key l))
  /\ (forall k, series_get cmp (fold_left step l g) k 0%Qc
                = (series_get cmp g k 0%Qc
                   + sum (map val (group_of cmp key k l)))%Qc).
Proof.
  revert g. induction l as [| r l IH]; intros g Hs; cbn [fold_left].
  - split; [exact Hs |]. split; [| split].
    + cbn [map]. change (sum []) with 0%Qc. ring.
    + intros k. simpl. tauto.
    + intros k. cbn [group_of filter map]. change (sum []) with 0%Qc. ring.
  - destruct (IH (step g r) (ascending_group_add _ _ _ Hs))
      as (Ha & Hsum & Hkeys & Hget).
    split; [exact Ha |]. split; [| split].
    + rewrite Hsum. unfold step. rewrite sum_group_add.
      cbn [map]. rewrite sum_cons. ring.
    + intros k. rewrite Hkeys. unfold step. rewrite keys_group_add. simpl.
      intuition.
    + intros k. rewrite Hget. unfold step, group_of. cbn [filter].
      destruct (cmp (key r) k) eqn:E.
      * apply (cmp_eq cmp order) in E. subst k.
        rewrite series_get_group_add_same by exact Hs.
        cbn [map]. rewrite sum_cons. ring.
      * rewrite series_get_group_add_other; [reflexivity |].
        intros ->. rewrite (cmp_refl cmp _ order) in E. discriminate.
      * rewrite series_get_group_add_other; [reflexivity |].
        intros ->. rewrite (cmp_refl cmp _ order) in E. discriminate.
Qed.

Lemma ascending_groupby_sum (l : list R) :
  ascending cmp (groupby_sum cmp key val l).
Proof. apply fold_group_add_facts. constructor. Qed.

Lemma keys_groupby_sum (l : list R) (k : K) :
  In k (map fst (groupby_sum cmp key val l)) <-> In k (map key l).
Proof.
  destruct (fold_group_add_facts l [] (SSorted_nil _)) as (_ & _ & H & _).
  unfold groupby_sum. fold step. rewrite H. simpl. tauto.
Qed.

Lemma series_get_groupby_sum (l : list R) (k : K) :
  series_get cmp (groupby_sum cmp key val l) k 0%Qc
  = sum (map val (group_of cmp key k l)).
Proof.
  destruct (fold_group_add_facts l [] (SSorted_nil _)) as (_ & _ & _ & H).
  unfold groupby_sum. fold step. rewrite H. cbn [series_get]. ring.
Qed.
End Rows.

(** In an ascending series a key is stored once, with the value [get] finds. *)
Lemma ascending_lookup (g : Series) (k : K) (s d : Qc) :
  ascending cmp g -> In (k, s) g -> series_get cmp g k d = s.
Proof.
  induction g as [| [k' s'] g IH]; intros Hs Hin; [contradiction |].
  pose proof (StronglySorted_inv Hs) as [Hg Hall].
  cbn [series_get]. destruct Hin as [Heq | Hin].
  - injection Heq as -> ->. now rewrite (cmp_refl cmp k order).
  - rewrite Forall_forall in Hall. specialize (Hall _ Hin). simpl in Hall.
    rewrite (cmp_antisym cmp order), Hall. simpl. now apply IH.
Qed.
End GroupByFacts.

(** ** Spending by category *)

Lemma compare_eqb (a b : string) :
  match String.compare a b with Eq => true | _ => false end = String.eqb a b.
Proof.
  destruct (String.eqb_spec a b) as [-> | Hne].
  - now rewrite (cmp_refl String.compare b string_total_order).
  - destruct (String.compare a b) eqn:E; try reflexivity.
    apply String.compare_eq_iff in E. contradiction.
Qed.

Lemma group_of_category (c : string) (l : list Transaction) :
  group_of String.compare tx_category c l
  = filter (fun t => String.eqb (tx_category t) c) l.
Proof. unfold group_of. apply filter_ext. intros t. apply compare_eqb. Qed.

Lemma empty_select_get_dataframe (p : Transaction -> bool) (st : SessionState) :
  empty (select p (get_dataframe st))
  = match filter p (transactions st) with [] => true | _ => false end.
Proof.
  unfold select, empty. cbn [rows columns]. rewrite rows_get_dataframe.
  unfold get_dataframe.
  destruct (transactions st); destruct (filter p _); reflexivity.
Qed.

Lemma rows_select_get_dataframe (p : Transaction -> bool) (st : SessionState) :
  rows (select p (get_dataframe st)) = filter p (transactions st).
Proof. unfold select. cbn [rows]. now rewrite rows_get_dataframe. Qed.

(** Without a month, the function returns the grouped sums of all Expense rows. *)
Lemma get_spending_by_category_eq (st : SessionState) :
  get_spending_by_category (get_dataframe st) None
  = Ok (groupby_sum String.compare tx_category tx_amount
          (filter is_expense (transactions st))).
Proof.
  unfold get_spending_by_category.
  rewrite column_get_dataframe by (simpl; tauto). cbn [bind].
  rewrite empty_select_get_dataframe, !column_select.
  rewrite !column_get_dataframe by (simpl; tauto).
  rewrite rows_select_get_dataframe. fold is_expense.
  destruct (filter is_expense (transactions st)); reflexivity.
Qed.

Lemma get_spending_by_category_get (st : SessionState) (c : string) :
  series_get String.compare
    (groupby_sum String.compare tx_category tx_amount
       (filter is_expense (transactions st))) c 0%Qc
  = category_spending (transactions st) c.
Proof.
  rewrite (series_get_groupby_sum _ string_total_order).
  now rewrite group_of_category.
Qed.

Lemma filter_swap {A : Type} (p q : A -> bool) (l : list A) :
  filter p (filter q l) = filter q (filter p l).
Proof.
  induction l as [| x l IH]; [reflexivity |]. cbn [filter].
  destruct (p x) eqn:P, (q x) eqn:Q; cbn [filter]; rewrite ?P, ?Q, IH;
    reflexivity.
Qed.

Lemma columns_get_dataframe (st : SessionState) : columns (get_dataframe st) <> [].
Proof. unfold get_dataframe. destruct (transactions st); discriminate. Qed.

Lemma empty_rows (df : DataFrame) :
  columns df <> [] -> empty df = match rows df with [] => true | _ => false end.
Proof.
  intros H. unfold empty. destruct (rows df); [reflexivity |].
  destruct (columns df); [contradiction | reflexivity].
Qed.

(** The month branch keeps the Expense rows of that month only. *)
Lemma get_spending_by_category_month (st : SessionState) (m : Period) (c : string) :
  exists s,
    get_spending_by_category (get_dataframe st) (Some m) = Ok s
    /\ series_get String.compare s c 0%Qc
       = category_spending_in m (transactions st) c.
Proof.
  unfold category_spending_in, category_spending.
  rewrite (filter_swap is_expense).
  unfold get_spending_by_category.
  rewrite column_get_dataframe by (simpl; tauto). cbn [bind].
  fold is_expense. set (e := select is_expense (get_dataframe st)).
  assert (He : rows e = filter is_expense (transactions st))
    by apply rows_select_get_dataframe.
  rewrite <- He.
  rewrite (empty_rows e) by apply columns_get_dataframe.
  destruct (rows e) as [| t l] eqn:Er; cbn [negb bind].
  - rewrite (empty_rows e) by apply columns_get_dataframe. rewrite Er.
    exists []. split; reflexivity.
  - unfold e at 1. rewrite column_select.
    rewrite column_get_dataframe by (simpl; tauto). cbn [bind].
    set (e' := select (fun t0 => period_eqb (to_period (tx_date t0)) m) e).
    assert (He' : rows e' = filter (fun t0 => period_eqb (to_period (tx_date t0)) m)
                              (t :: l)).
    { unfold e', select. cbn [rows]. now rewrite Er. }
    rewrite (empty_rows e') by apply columns_get_dataframe.
    rewrite <- He'. destruct (rows e') eqn:Er'; cbn [negb].
    + exists []. split; reflexivity.
    + unfold e', e. rewrite !column_select.
      rewrite !column_get_dataframe by (simpl; tauto). cbn [bind].
      eexists. split; [reflexivity |].
      rewrite (series_get_groupby_sum _ string_total_order).
      now rewrite group_of_category.
Qed.

Example spending_scenario :
  get_spending_by_category (get_dataframe (append_all scenario initial_state)) None
  = Ok [("Food", of_int 80)].
Proof. vm_compute. reflexivity. Qed.

(** ** The empty snapshot *)

(** C8. On the empty snapshot every aggregation function returns normally:
    the balance is 0, the category statistics and the category spending are
    empty mappings, the trend is the no-data value, and the top-n frame has no
    row.  No call raises. *)
Theorem empty_snapshot_results
    (b : dict Qc) (g : list Goal) (r : list Recurring) (now : DateTime)
    (month : option Period) (days : Z) (n : nat) :
  let st := mkSession [] b g r in
  let df := get_dataframe st in
  calculate_balance st = Ok 0%Qc
  /\ calculate_category_stats df = Ok []
  /\ get_spending_by_category df month = Ok []
  /\ get_trend_data now df days = Ok None
  /\ (exists f, get_top_transactions df n = Ok f /\ top_rows f = []).
Proof.
  cbn zeta. repeat split.
  - destruct month; reflexivity.
  - eexists. split; reflexivity.
Qed.

(** ** Budget keys *)

Lemma split_not_nil (sep : ascii) (s : string) : split sep s <> [].
Proof.
  destruct s as [| c s]; cbn [split]; [discriminate |].
  destruct (Ascii.eqb c sep); [discriminate |].
  destruct (split sep s); discriminate.
Qed.

Lemma getitem_split (sep : ascii) (s : string) :
  getitem (split sep s) 0 = Ok (hd "" (split sep s)).
Proof.
  pose proof (split_not_nil sep s) as H. unfold getitem.
  destruct (split sep s); [contradiction | reflexivity].
Qed.

Lemma hd_split_cons (sep c : ascii) (s : string) :
  hd "" (split sep (String c s))
  = if Ascii.eqb c sep then "" else String c (hd "" (split sep s)).
Proof.
  pose proof (split_not_nil sep s) as H. cbn [split].
  destruct (Ascii.eqb c sep); [reflexivity |].
  destruct (split sep s); [contradiction | reflexivity].
Qed.

(** The month and the underscore that [add_budget] appends never reach the
    first piece: it is the first piece of the category itself. *)
Lemma first_piece_key (category month : string) :
  first_piece (category ++ "_" ++ month) = first_piece category.
Proof.
  unfold first_piece. induction category as [| c s IH].
  - reflexivity.
  - change (String c s ++ "_" ++ month)%string
      with (String c (s ++ "_" ++ month)%string).
    rewrite !hd_split_cons, IH. reflexivity.
Qed.

Lemma first_piece_prefix (p rest : string) :
  contains "_" p = false -> first_piece (p ++ "_" ++ rest) = p.
Proof.
  unfold first_piece. induction p as [| c p IH]; intros H.
  - reflexivity.
  - cbn [contains] in H. apply orb_false_iff in H as [Hc Hp].
    change (String c p ++ "_" ++ rest)%string
      with (String c (p ++ "_" ++ rest)%string).
    rewrite hd_split_cons, Hc, IH by exact Hp. reflexivity.
Qed.

Lemma first_piece_no_underscore (p : string) :
  contains "_" p = false -> first_piece p = p.
Proof.
  unfold first_piece. induction p as [| c p IH]; intros H.
  - reflexivity.
  - cbn [contains] in H. apply orb_false_iff in H as [Hc Hp].
    rewrite hd_split_cons, Hc, IH by exact Hp. reflexivity.
Qed.

Lemma first_piece_clean (s : string) : contains "_" (first_piece s) = false.
Proof.
  unfold first_piece. induction s as [| c s IH]; [reflexivity |].
  rewrite hd_split_cons. destruct (Ascii.eqb c "_") eqn:E; [reflexivity |].
  cbn [contains]. now rewrite E, IH.
Qed.

(** ** Percentages *)

Lemma percentage_eq (spending denominator : Qc) :
  percentage spending denominator = Ok (guarded_ratio spending denominator).
Proof.
  unfold percentage, guarded_ratio, truediv.
  destruct (Qcltb 0 denominator) eqn:E; [| reflexivity].
  destruct (Qceqb denominator 0) eqn:Z; [| reflexivity].
  apply Qceqb_eq in Z. subst denominator. apply Qcltb_lt in E.
  exfalso. exact (Qclt_not_eq _ _ E eq_refl).
Qed.

(** ** Loops over the registries *)

Lemma for_each_collect {A B : Type} (body : list B -> A -> result (list B))
    (f : A -> list B) (xs : list A) (acc : list B) :
  (forall acc x, body acc x = Ok (acc ++ f x)) ->
  for_each body xs acc = Ok (acc ++ flat_map f xs).
Proof.
  intros H. revert acc. induction xs as [| x xs IH]; intros acc; cbn [for_each flat_map].
  - now rewrite app_nil_r.
  - rewrite H. cbn [bind]. rewrite IH. now rewrite app_assoc.
Qed.

Lemma alert_step_eq (st : SessionState) (alerts : list Alert) (item : string * Qc) :
  alert_step (get_dataframe st) alerts item
  = Ok (alerts ++ alert_for (transactions st) item).
Proof.
  destruct item as [key amount]. unfold alert_step, alert_for.
  rewrite getitem_split. cbn [bind fst snd].
  rewrite get_spending_by_category_eq. cbn [bind].
  rewrite get_spending_by_category_get. fold (first_piece key).
  destruct (Qcltb amount _); [reflexivity | now rewrite app_nil_r].
Qed.

Lemma check_budget_alerts_eq (now : DateTime) (st ledger : SessionState) :
  check_budget_alerts now st (get_dataframe ledger)
  = Ok (flat_map (alert_for (transactions ledger)) (budgets st)).
Proof.
  unfold check_budget_alerts.
  now rewrite (for_each_collect _ (alert_for (transactions ledger)))
    by apply alert_step_eq.
Qed.

Lemma overview_step_eq (st : SessionState) (data : list BudgetRow)
    (item : string * Qc) :
  overview_step (get_dataframe st) data item
  = Ok (data ++ [row_for (transactions st) item]).
Proof.
  destruct item as [key amount]. unfold overview_step, row_for.
  rewrite getitem_split. cbn [bind fst snd].
  rewrite get_spending_by_category_eq. cbn [bind].
  rewrite get_spending_by_category_get, percentage_eq. reflexivity.
Qed.

Lemma flat_map_singleton {A B : Type} (f : A -> B) (l : list A) :
  flat_map (fun x => [f x]) l = map f l.
Proof. induction l as [| x l IH]; [reflexivity |]. cbn. now rewrite IH. Qed.

Lemma budget_overview_eq (st : SessionState) :
  budget_overview st
  = Ok (match budgets st with
        | [] => None
        | items => Some (map (row_for (transactions st)) items)
        end).
Proof.
  unfold budget_overview. destruct (budgets st) as [| item items]; [reflexivity |].
  rewrite (for_each_collect _ (fun x => [row_for (transactions st) x]))
    by apply overview_step_eq.
  cbn [bind app]. now rewrite flat_map_singleton.
Qed.



Lemma length_append (s1 s2 : string) :
  String.length (s1 ++ s2) = (String.length s1 + String.length s2)%nat.
Proof. induction s1 as [| c s1 IH]; simpl; [reflexivity | now rewrite IH]. Qed.

(** ** Budget alerts *)

Example alerts_scenario :
  check_budget_alerts january_noon january_ledger (get_dataframe january_ledger)
  = Ok [mkAlert "Food" (of_int 60) (of_int 80) (of_int 20)].
Proof. vm_compute. reflexivity. Qed.

(** C1, where the code departs from it.  The claim measures a budget against
    the spending of the current calendar month.  [check_budget_alerts] computes
    the current month and then calls [get_spending_by_category] without it, so
    it measures against the spending of every month: with a Food expense of 80
    dated December 2024, a Food budget of 60 and the clock in January 2025, the
    January spending is 0 (also according to the month branch of
    [get_spending_by_category]), yet the function reports Food as 20 over. *)
Theorem check_budget_alerts_counts_every_month :
  category_spending_in (to_period (dt_date january_noon))
    (transactions december_ledger) "Food" = 0%Qc
  /\ get_spending_by_category (get_dataframe december_ledger)
       (Some (to_period (dt_date january_noon))) = Ok []
  /\ check_budget_alerts january_noon december_ledger (get_dataframe december_ledger)
     = Ok [mkAlert "Food" (of_int 60) (of_int 80) (of_int 20)].
Proof. vm_compute. repeat split; reflexivity. Qed.

(** C10. The category of a budget entry is recovered from its key by splitting
    at the first underscore.  For every registry, [check_budget_alerts] and the
    budget overview report, for each entry in order, the first piece of the key
    and the spending recorded under that piece.  So a budget set for a category
    [prefix_rest] is reported as [prefix], with the spending of [prefix], not of
    the category it was set for. *)
Theorem budget_category_is_first_piece
    (now : DateTime) (st ledger : SessionState)
    (prefix rest month : string) (amount : Qc) :
  contains "_" prefix = false ->
  budgets ledger = [] ->
  let category := (prefix ++ "_" ++ rest)%string in
  let spent := category_spending (transactions ledger) prefix in
  check_budget_alerts now st (get_dataframe st)
  = Ok (flat_map (alert_for (transactions st)) (budgets st))
  /\ budget_overview st
     = Ok (match budgets st with
           | [] => None
           | items => Some (map (row_for (transactions st)) items)
           end)
  /\ first_piece (category ++ "_" ++ month) = prefix
  /\ prefix <> category
  /\ check_budget_alerts now (add_budget category amount month ledger)
       (get_dataframe (add_budget category amount month ledger))
     = Ok (if Qcltb amount spent
           then [mkAlert prefix amount spent (spent - amount)%Qc]
           else [])
  /\ budget_overview (add_budget category amount month ledger)
     = Ok (Some [mkBudgetRow prefix amount spent (amount - spent)%Qc
                             (guarded_ratio spent amount)]).
Proof.
  intros Hp Hb category spent.
  assert (Hfirst : first_piece (category ++ "_" ++ month) = prefix).
  { rewrite first_piece_key. now apply first_piece_prefix. }
  split; [apply check_budget_alerts_eq |].
  split; [apply budget_overview_eq |].
  split; [exact Hfirst |].
  split.
  - intros E. apply (f_equal String.length) in E. unfold category in E.
    rewrite length_append in E. simpl in E. lia.
  - rewrite check_budget_alerts_eq, budget_overview_eq.
    unfold add_budget. cbn [budgets transactions]. rewrite Hb.
    cbn [dict_set flat_map map]. unfold alert_for, row_for. cbn [fst snd].
    rewrite Hfirst. fold spent. rewrite app_nil_r. split; reflexivity.
Qed.

Lemma budget_category_is_first_piece_witness :
  contains "_" "Fast" = false
  /\ budgets fast_food_ledger = []
  /\ check_budget_alerts january_noon
       (add_budget "Fast_Food" (of_int 50) "2025-01" fast_food_ledger)
       (get_dataframe (add_budget "Fast_Food" (of_int 50) "2025-01" fast_food_ledger))
     = Ok (if Qcltb (of_int 50) (category_spending (transactions fast_food_ledger) "Fast")
           then [mkAlert "Fast" (of_int 50)
                   (category_spending (transactions fast_food_ledger) "Fast")
                   (category_spending (transactions fast_food_ledger) "Fast"
                    - of_int 50)%Qc]
           else []).
Proof.
  split; [reflexivity |]. split; [reflexivity |].
  apply (budget_category_is_first_piece january_noon initial_state fast_food_ledger
           "Fast" "Food" "2025-01" (of_int 50) eq_refl eq_refl).
Defined.

Example fast_food_alert :
  check_budget_alerts january_noon
    (add_budget "Fast_Food" (of_int 50) "2025-01" fast_food_ledger)
    (get_dataframe (add_budget "Fast_Food" (of_int 50) "2025-01" fast_food_ledger))
  = Ok [mkAlert "Fast" (of_int 50) (of_int 70) (of_int 20)].
Proof. vm_compute. reflexivity. Qed.

(** ** Division guards *)

Example unguarded_division (spending : Qc) :
  truediv spending 0%Qc = Raise ZeroDivisionError.
Proof. reflexivity. Qed.



(** ** The budget registry *)

Lemma dict_lookup_set_same {V : Type} (d : dict V) (k : string) (v : V) :
  dict_lookup (dict_set d k v) k = Some v.
Proof.
  induction d as [| [k' v'] d IH]; cbn [dict_set].
  - cbn [dict_lookup]. now rewrite String.eqb_refl.
  - destruct (String.eqb k k') eqn:E; cbn [dict_lookup].
    + now rewrite String.eqb_refl.
    + now rewrite E.
Qed.

Lemma dict_lookup_set_other {V : Type} (d : dict V) (k k0 : string) (v : V) :
  k0 <> k -> dict_lookup (dict_set d k v) k0 = dict_lookup d k0.
Proof.
  intros Hne. induction d as [| [k' v'] d IH]; cbn [dict_set].
  - cbn [dict_lookup]. now rewrite (proj2 (String.eqb_neq k0 k) Hne).
  - destruct (String.eqb_spec k k') as [<- | Hk]; cbn [dict_lookup].
    + now rewrite (proj2 (String.eqb_neq k0 k) Hne).
    + now rewrite IH.
Qed.

Lemma keys_dict_set {V : Type} (d : dict V) (k k0 : string) (v : V) :
  In k0 (map fst (dict_set d k v)) <-> k0 = k \/ In k0 (map fst d).
Proof.
  induction d as [| [k' v'] d IH]; cbn [dict_set].
  - simpl. intuition.
  - destruct (String.eqb_spec k k') as [<- | Hk]; cbn [map fst In].
    + intuition.
    + rewrite IH. intuition.
Qed.

Lemma NoDup_dict_set {V : Type} (d : dict V) (k : string) (v : V) :
  NoDup (map fst d) -> NoDup (map fst (dict_set d k v)).
Proof.
  induction d as [| [k' v'] d IH]; intros H; cbn [dict_set].
  - repeat constructor. intros [].
  - cbn [map fst] in H. apply NoDup_cons_iff in H as [Hnot Hd].
    destruct (String.eqb_spec k k') as [<- | Hk]; cbn [map fst].
    + now constructor.
    + constructor; [| now apply IH].
      rewrite keys_dict_set. intros [E | I]; [now symmetry in E | contradiction].
Qed.

Lemma dict_set_twice {V : Type} (d : dict V) (k : string) (v1 v2 : V) :
  dict_set (dict_set d k v1) k v2 = dict_set d k v2.
Proof.
  induction d as [| [k' v'] d IH]; cbn [dict_set].
  - now rewrite String.eqb_refl.
  - destruct (String.eqb k k') eqn:E; cbn [dict_set].
    + now rewrite String.eqb_refl.
    + now rewrite E, IH.
Qed.

Lemma dict_count_NoDup {V : Type} (d : dict V) (k : string) :
  NoDup (map fst d) ->
  dict_count d k = if existsb (String.eqb k) (map fst d) then 1 else 0.
Proof.
  unfold dict_count. induction d as [| [k' v'] d IH]; intros H; [reflexivity |].
  cbn [map fst] in H. apply NoDup_cons_iff in H as [Hnot Hd].
  cbn [filter map fst existsb]. destruct (String.eqb_spec k k') as [<- | Hk].
  - cbn [List.length orb]. rewrite (IH Hd).
    destruct (existsb (String.eqb k) (map fst d)) eqn:E; [| reflexivity].
    apply existsb_exists in E as [x [Hin Hx]]. apply String.eqb_eq in Hx.
    subst x. contradiction.
  - cbn [orb]. now apply IH.
Qed.

Lemma dict_count_set {V : Type} (d : dict V) (k : string) (v : V) :
  NoDup (map fst d) -> dict_count (dict_set d k v) k = 1.
Proof.
  intros H. rewrite dict_count_NoDup by now apply NoDup_dict_set.
  destruct (existsb (String.eqb k) (map fst (dict_set d k v))) eqn:E;
    [reflexivity |].
  assert (Hin : In k (map fst (dict_set d k v))) by (apply keys_dict_set; now left).
  assert (Hex : existsb (String.eqb k) (map fst (dict_set d k v)) = true).
  { apply existsb_exists. exists k. split; [exact Hin | apply String.eqb_refl]. }
  congruence.
Qed.

Lemma NoDup_set_all (ops : list (string * Qc * string)) (st : SessionState) :
  NoDup (map fst (budgets st)) -> NoDup (map fst (budgets (set_all ops st))).
Proof.
  revert st. induction ops as [| op ops IH]; intros st H; [exact H |].
  apply IH. unfold add_budget. cbn [budgets]. now apply NoDup_dict_set.
Qed.

(** C7. Setting a budget twice for the same (category, month) leaves one entry
    for that pair, holding the latest amount: the registry is the one obtained
    by the second set alone.  After any sequence of sets from the session's
    initial state, no key is stored more than once. *)
Theorem add_budget_overwrites
    (st : SessionState) (category month : string) (a1 a2 : Qc)
    (ops : list (string * Qc * string)) (c m : string) :
  NoDup (map fst (budgets st)) ->
  let key := (category ++ "_" ++ month)%string in
  let st2 := add_budget category a2 month (add_budget category a1 month st) in
  dict_lookup (budgets st2) key = Some a2
  /\ dict_count (budgets st2) key = 1
  /\ st2 = add_budget category a2 month st
  /\ dict_count (budgets (set_all ops st)) (c ++ "_" ++ m) <= 1
  /\ dict_count (budgets (set_all ops initial_state)) (c ++ "_" ++ m) <= 1.
Proof.
  intros H key st2. unfold st2, add_budget. cbn [budgets transactions goals recurring].
  fold key. rewrite dict_set_twice.
  split; [apply dict_lookup_set_same |].
  split; [now apply dict_count_set |].
  split; [reflexivity |].
  split.
  - rewrite dict_count_NoDup by now apply NoDup_set_all.
    destruct (existsb _ _); lia.
  - rewrite dict_count_NoDup by (apply NoDup_set_all; constructor).
    destruct (existsb _ _); lia.
Qed.

Lemma add_budget_overwrites_witness :
  NoDup (map fst (budgets january_ledger))
  /\ dict_lookup
       (budgets (add_budget "Food" (of_int 90) "2025-01"
                   (add_budget "Food" (of_int 75) "2025-01" january_ledger)))
       "Food_2025-01" = Some (of_int 90).
Proof.
  assert (H : NoDup (map fst (budgets january_ledger))).
  { repeat constructor. intros []. }
  split; [exact H |].
  apply (add_budget_overwrites january_ledger "Food" "2025-01" (of_int 75)
           (of_int 90) [] "Food" "2025-01" H).
Defined.

(** ** Removal by position *)

Section Pop.
Context {A : Type}.
Implicit Types (l : list A) (i : Z).

Lemma pop_in_range l i :
  (0 <= i < Z.of_nat (List.length l))%Z ->
  exists x,
    nth_error l (Z.to_nat i) = Some x
    /\ pop l i = (Ok x, firstn (Z.to_nat i) l ++ skipn (S (Z.to_nat i)) l).
Proof.
  intros H. unfold pop.
  destruct (Z.ltb_spec i 0) as [Hneg | _]; [lia |].
  destruct (Z.ltb_spec i 0) as [Hneg | _]; [lia |].
  destruct (Z.leb_spec (Z.of_nat (List.length l)) i) as [Hge | _]; [lia |].
  cbn [orb]. destruct (nth_error l (Z.to_nat i)) as [x |] eqn:E.
  - now exists x.
  - apply nth_error_None in E. lia.
Qed.


(** A negative index in range counts from the end of the list. *)
Lemma pop_from_end l i :
  (- Z.of_nat (List.length l) <= i < 0)%Z ->
  pop l i = pop l (i + Z.of_nat (List.length l)).
Proof.
  intros H.
  assert (E1 : (i <? 0)%Z = true) by (apply Z.ltb_lt; lia).
  assert (E2 : (i + Z.of_nat (List.length l) <? 0)%Z = false)
    by (apply Z.ltb_ge; lia).
  unfold pop. cbv zeta. rewrite E1, E2. cbv iota. now rewrite E2.
Qed.

End Pop.

Lemma session_eta (st : SessionState) :
  mkSession (transactions st) (budgets st) (goals st) (recurring st) = st.
Proof. now destruct st. Qed.

Example delete_middle_goal :
  map goal_name (goals three_goals) = ["Trip"; "Course"; "Bike"]
  /\ map goal_name (goals (snd (delete_goal 1 three_goals))) = ["Trip"; "Bike"].
Proof. split; reflexivity. Qed.




(** ** Largest transactions *)

Lemma insert_desc_perm (t : Transaction) (l : list Transaction) :
  Permutation (insert_desc t l) (t :: l).
Proof.
  induction l as [| u l IH]; cbn [insert_desc]; [reflexivity |].
  destruct (Qcltb (tx_amount t) (tx_amount u)); [| reflexivity].
  rewrite IH. apply perm_swap.
Qed.

Lemma sort_desc_perm (l : list Transaction) : Permutation (sort_desc l) l.
Proof.
  induction l as [| t l IH]; [reflexivity |].
  change (sort_desc (t :: l)) with (insert_desc t (sort_desc l)).
  rewrite insert_desc_perm. now constructor.
Qed.

Lemma insert_desc_descending (t : Transaction) (l : list Transaction) :
  descending l -> descending (insert_desc t l).
Proof.
  unfold descending. induction l as [| u l IH]; intros H; cbn [insert_desc].
  - repeat constructor.
  - pose proof (StronglySorted_inv H) as [Hl Hall].
    destruct (Qcltb (tx_amount t) (tx_amount u)) eqn:E.
    + constructor; [now apply IH |].
      rewrite Forall_forall in *. intros x Hx.
      apply (Permutation_in _ (insert_desc_perm t l)) in Hx as [<- | Hx].
      * apply Qcltb_lt in E. now apply Qclt_le_weak.
      * now apply Hall.
    + apply Qcltb_ge in E. constructor; [exact H |].
      constructor; [exact E |].
      eapply Forall_impl; [| exact Hall]. intros x Hx. cbn beta in *.
      exact (Qcle_trans _ _ _ Hx E).
Qed.

Lemma sort_desc_descending (l : list Transaction) : descending (sort_desc l).
Proof.
  induction l as [| t l IH]; [constructor |].
  now apply insert_desc_descending.
Qed.

Lemma Qceqb_refl (x : Qc) : Qceqb x x = true.
Proof. now apply Qceqb_eq. Qed.

(** A row goes in front of every row of its own amount. *)
Lemma with_amount_insert_desc (a : Qc) (t : Transaction) (l : list Transaction) :
  with_amount a (insert_desc t l) = with_amount a (t :: l).
Proof.
  unfold with_amount. induction l as [| u l IH]; cbn [insert_desc]; [reflexivity |].
  destruct (Qcltb (tx_amount t) (tx_amount u)) eqn:E; [| reflexivity].
  cbn [filter] in *. rewrite IH.
  destruct (Qceqb (tx_amount t) a) eqn:Et; [| reflexivity].
  destruct (Qceqb (tx_amount u) a) eqn:Eu; [| reflexivity].
  apply Qceqb_eq in Et, Eu. apply Qcltb_lt in E. rewrite Et, Eu in E.
  exfalso. exact (Qclt_not_eq _ _ E eq_refl).
Qed.

Lemma with_amount_sort_desc (a : Qc) (l : list Transaction) :
  with_amount a (sort_desc l) = with_amount a l.
Proof.
  induction l as [| t l IH]; [reflexivity |].
  change (sort_desc (t :: l)) with (insert_desc t (sort_desc l)).
  rewrite with_amount_insert_desc. unfold with_amount in *. cbn [filter].
  now rewrite IH.
Qed.

(** Every row left out is no larger than any row kept. *)
Lemma descending_firstn_skipn (n : nat) (l : list Transaction) :
  descending l ->
  forall t u, In t (firstn n l) -> In u (skipn n l) ->
              (tx_amount u <= tx_amount t)%Qc.
Proof.
  unfold descending. revert l. induction n as [| n IH]; intros l H t u Ht Hu.
  - contradiction.
  - destruct l as [| x l]; [contradiction |].
    pose proof (StronglySorted_inv H) as [Hl Hall].
    cbn [firstn skipn] in *. destruct Ht as [<- | Ht].
    + rewrite Forall_forall in Hall. apply Hall.
      rewrite <- (firstn_skipn n l). apply in_or_app. now right.
    + now apply (IH l).
Qed.

Lemma get_top_transactions_eq (st : SessionState) (n : nat) :
  exists f,
    get_top_transactions (get_dataframe st) n = Ok f
    /\ top_rows f = map project_top (firstn n (sort_desc (transactions st))).
Proof.
  unfold get_top_transactions. rewrite empty_get_dataframe.
  destruct (transactions st) as [| t l] eqn:E.
  - eexists. split; [reflexivity |].
    cbn [top_rows]. rewrite rows_get_dataframe, E. now destruct n.
  - unfold nlargest. rewrite column_get_dataframe by (simpl; tauto).
    cbn [bind]. unfold project_columns. cbn [for_each bind].
    unfold column at 1 2 3 4 5. cbn [columns].
    pose proof (column_get_dataframe st "date") as H1.
    pose proof (column_get_dataframe st "category") as H2.
    pose proof (column_get_dataframe st "amount") as H3.
    pose proof (column_get_dataframe st "type") as H4.
    pose proof (column_get_dataframe st "description") as H5.
    unfold column in H1, H2, H3, H4, H5.
    destruct (existsb (String.eqb "date") _); [| discriminate H1; simpl; tauto].
    destruct (existsb (String.eqb "category") _); [| discriminate H2; simpl; tauto].
    destruct (existsb (String.eqb "amount") _); [| discriminate H3; simpl; tauto].
    destruct (existsb (String.eqb "type") _); [| discriminate H4; simpl; tauto].
    destruct (existsb (String.eqb "description") _);
      [| discriminate H5; simpl; tauto].
    cbn [bind rows]. eexists. split; [reflexivity |].
    cbn [top_rows]. now rewrite rows_get_dataframe, E.
Qed.

Example top_scenario :
  exists f,
    get_top_transactions (get_dataframe (append_all scenario initial_state)) 1 = Ok f
    /\ top_rows f = [mkTopRow (jan 12) "Salary" (of_int 1000) "Income" "pay"].
Proof. eexists. split; vm_compute; reflexivity. Qed.

Lemma StronglySorted_map {A B : Type} (f : A -> B) (R : A -> A -> Prop)
    (S : B -> B -> Prop) (l : list A) :
  (forall x y, R x y -> S (f x) (f y)) ->
  StronglySorted R l -> StronglySorted S (map f l).
Proof.
  intros H. induction 1 as [| x l Hl IH Hall]; cbn [map]; constructor.
  - exact IH.
  - apply Forall_map. eapply Forall_impl; [| exact Hall]. intros y. apply H.
Qed.

Lemma shows_project_top (l : list Transaction) :
  Forall2 shows (map project_top l) l.
Proof.
  induction l as [| t l IH]; cbn [map]; constructor; [| exact IH].
  unfold shows, project_top. cbn. repeat split.
Qed.

Lemma descending_rows (l : list Transaction) :
  descending l ->
  StronglySorted (fun r1 r2 => (top_amount r2 <= top_amount r1)%Qc)
    (map project_top l).
Proof.
  unfold descending. apply StronglySorted_map. intros x y H. exact H.
Qed.

Lemma descending_firstn (n : nat) (l : list Transaction) :
  descending l -> descending (firstn n l).
Proof.
  unfold descending. revert l. induction n as [| n IH]; intros l H; [constructor |].
  destruct l as [| x l]; [constructor |].
  apply StronglySorted_inv in H as [Hl Hall]. cbn [firstn]. constructor.
  - now apply IH.
  - rewrite Forall_forall in *. intros y Hy. apply Hall.
    rewrite <- (firstn_skipn n l). apply in_or_app. now left.
Qed.

(** C3. [get_top_transactions] on the ledger frame returns normally.  Its
    rows show, position by position, the first n records of the ledger
    rearranged by descending amount with records of equal amount kept in their
    original order: each row holds the date, category, amount, type and
    description of its record and nothing else, so the amounts of the rows
    themselves are in descending order.  Every record left out is no larger
    than any record shown; the number of rows is min(n, ledger size), and none
    for an empty ledger. *)
Theorem get_top_transactions_largest_stable (st : SessionState) (n : nat) :
  exists f sorted,
    get_top_transactions (get_dataframe st) n = Ok f
    /\ Forall2 shows (top_rows f) (firstn n sorted)
    /\ StronglySorted (fun r1 r2 => (top_amount r2 <= top_amount r1)%Qc)
         (top_rows f)
    /\ top_rows f = map project_top (firstn n sorted)
    /\ Permutation sorted (transactions st)
    /\ descending sorted
    /\ (forall a, with_amount a sorted = with_amount a (transactions st))
    /\ (forall t u, In t (firstn n sorted) -> In u (skipn n sorted) ->
                    (tx_amount u <= tx_amount t)%Qc)
    /\ List.length (top_rows f) = Nat.min n (List.length (transactions st))
    /\ (forall b g r k,
          exists e, get_top_transactions (get_dataframe (mkSession [] b g r)) k = Ok e
                    /\ top_rows e = []).
Proof.
  destruct (get_top_transactions_eq st n) as (f & Hf & Hrows).
  exists f, (sort_desc (transactions st)).
  split; [exact Hf |].
  split; [rewrite Hrows; apply shows_project_top |].
  split; [rewrite Hrows; apply descending_rows, descending_firstn,
                           sort_desc_descending |].
  split; [exact Hrows |].
  split; [apply sort_desc_perm |].
  split; [apply sort_desc_descending |].
  split; [intros a; apply with_amount_sort_desc |].
  split; [apply descending_firstn_skipn, sort_desc_descending |].
  split.
  - rewrite Hrows, length_map, length_firstn.
    now rewrite (Permutation_length (sort_desc_perm (transactions st))).
  - intros b g r k. eexists. split; reflexivity.
Qed.

(** ** Trend *)

Example datetime_max_ordinal : toordinal (mkDate 9999 12 31) = 3652059%Z.
Proof. reflexivity. Qed.

Lemma minus_days_eq (now : DateTime) (days : Z) :
  minus_days now days
  = if in_datetime_range now days then Ok (shifted now days)
    else Raise OverflowError.
Proof.
  unfold minus_days, in_datetime_range.
  destruct (timedelta_max_days <? Z.abs days)%Z; [reflexivity |].
  now destruct ((shifted now days <? min_timestamp)
                || (max_timestamp <? shifted now days))%Z.
Qed.

Lemma in_datetime_range_spec (now : DateTime) (days : Z) :
  in_datetime_range now days = true
  <-> (Z.abs days <= 999999999
       /\ min_timestamp <= timestamp now - days * usec_per_day <= max_timestamp)%Z.
Proof.
  unfold in_datetime_range, shifted, timedelta_max_days.
  rewrite andb_true_iff, !negb_true_iff, orb_false_iff, !Z.ltb_ge. tauto.
Qed.

Lemma get_trend_data_eq (now : DateTime) (st : SessionState) (days : Z) :
  get_trend_data now (get_dataframe st) days
  = match transactions st with
    | [] => Ok None
    | _ :: _ =>
        if in_datetime_range now days then
          Ok (match recent now days (transactions st) with
              | [] => None
              | rs => Some (map trend_row
                              (groupby_sum date_type_compare trend_key tx_amount rs))
              end)
        else Raise OverflowError
    end.
Proof.
  unfold get_trend_data. rewrite empty_get_dataframe, minus_days_eq.
  destruct (transactions st) as [| t l] eqn:E; [reflexivity |].
  destruct (in_datetime_range now days); [| reflexivity]. cbn [bind].
  rewrite column_get_dataframe by (simpl; tauto). cbn [bind].
  rewrite empty_select_get_dataframe, !column_select.
  rewrite !column_get_dataframe by (simpl; tauto). cbn [bind].
  rewrite rows_select_get_dataframe, E. fold (recent now days (t :: l)).
  destruct (recent now days (t :: l)); reflexivity.
Qed.

Lemma get_trend_data_in_range (now : DateTime) (st : SessionState) (days : Z) :
  in_datetime_range now days = true ->
  get_trend_data now (get_dataframe st) days
  = Ok (match recent now days (transactions st) with
        | [] => None
        | rs => Some (map trend_row
                        (groupby_sum date_type_compare trend_key tx_amount rs))
        end).
Proof.
  intros H. rewrite get_trend_data_eq, H. now destruct (transactions st).
Qed.

Lemma date_type_lt_date (k1 k2 : Date * string) :
  date_type_compare k1 k2 = Lt -> date_compare (fst k1) (fst k2) <> Gt.
Proof.
  unfold date_type_compare. destruct (date_compare (fst k1) (fst k2));
    intros H; congruence.
Qed.

Lemma in_trend_rows (d : Date) (k : string) (a : Qc)
    (g : Series (K := Date * string)) :
  In (mkTrendRow d k a) (map trend_row g) <-> In ((d, k), a) g.
Proof.
  rewrite in_map_iff. split.
  - intros [[[d' k'] a'] [E H]]. unfold trend_row in E. cbn in E.
    now injection E as -> -> ->.
  - intros H. now exists ((d, k), a).
Qed.

Lemma in_group_of_trend (d : Date) (k : string) (t : Transaction)
    (l : list Transaction) :
  In t (group_of date_type_compare trend_key (d, k) l)
  <-> In t l /\ tx_date t = d /\ tx_type t = k.
Proof.
  unfold group_of. rewrite filter_In.
  pose proof (cmp_eq _ date_type_total_order (trend_key t) (d, k)) as E.
  unfold trend_key in *. split.
  - intros [Hin Hc]. split; [exact Hin |].
    destruct (date_type_compare (tx_date t, tx_type t) (d, k)); try discriminate.
    destruct E as [E _]. specialize (E eq_refl). now injection E.
  - intros (Hin & <- & <-). split; [exact Hin |].
    now rewrite (proj2 E eq_refl).
Qed.

(** C2, as the claim states it, fails: the window is bounded below only.  A
    record dated three weeks after the clock lies outside [now - 30, now], yet
    it is the row the function returns. *)
Lemma get_trend_data_keeps_later_records :
  (timestamp january_noon < timestamp (to_datetime (mkDate 2025 2 10)))%Z
  /\ within_window january_noon 30 (transactions future_ledger) = []
  /\ get_trend_data january_noon (get_dataframe future_ledger) 30
     = Ok (Some [mkTrendRow (mkDate 2025 2 10) "Expense" (of_int 25)]).
Proof. vm_compute. repeat split; reflexivity. Qed.

(** C2, amended.  For every window for which now - windowDays is a datetime
    (at most 999999999 days in magnitude, and landing in the years 1 to 9999),
    [get_trend_data] keeps exactly the records dated at or after
    now - windowDays; there is no upper bound, so records dated after now are
    kept.  It returns the no-data value when no record is kept.  Otherwise it
    returns one row per (date, type) pair occurring among the kept records,
    carrying the sum of the amounts of the kept records of that pair, with the
    rows in ascending order of date and, within a date, of type.  For any
    other window the call raises OverflowError, unless the ledger is empty. *)
Theorem get_trend_data_lower_bound_only
    (now : DateTime) (st : SessionState) (days : Z) :
  in_datetime_range now days = true ->
  (exists result,
    get_trend_data now (get_dataframe st) days = Ok result
    /\ (forall t, In t (recent now days (transactions st))
                  <-> In t (transactions st)
                      /\ (timestamp now - days * usec_per_day
                          <= timestamp (to_datetime (tx_date t)))%Z)
    /\ (result = None <-> recent now days (transactions st) = [])
    /\ (forall rows, result = Some rows ->
          StronglySorted
            (fun r1 r2 => date_type_compare (trend_date r1, trend_type r1)
                            (trend_date r2, trend_type r2) = Lt) rows
          /\ StronglySorted
               (fun r1 r2 => date_compare (trend_date r1) (trend_date r2) <> Gt)
               rows
          /\ (forall d k,
                (exists a, In (mkTrendRow d k a) rows)
                <-> (exists t, In t (recent now days (transactions st))
                               /\ tx_date t = d /\ tx_type t = k))
          /\ (forall d k a,
                In (mkTrendRow d k a) rows ->
                a = sum (map tx_amount
                           (group_of date_type_compare trend_key (d, k)
                              (recent now days (transactions st)))))
          /\ (forall d k t,
                In t (group_of date_type_compare trend_key (d, k)
                        (recent now days (transactions st)))
                <-> In t (recent now days (transactions st))
                    /\ tx_date t = d /\ tx_type t = k)))
  /\ (forall d,
        in_datetime_range now d = true
        <-> (Z.abs d <= 999999999
             /\ min_timestamp <= timestamp now - d * usec_per_day
                <= max_timestamp)%Z)
  /\ (forall d,
        in_datetime_range now d = false ->
        get_trend_data now (get_dataframe st) d
        = match transactions st with
          | [] => Ok None
          | _ :: _ => Raise OverflowError
          end).
Proof.
  intros Hrange. split; [| split].
  2: { intros d. apply in_datetime_range_spec. }
  2: { intros d Hd. rewrite get_trend_data_eq, Hd. now destruct (transactions st). }
  rewrite (get_trend_data_in_range _ _ _ Hrange). eexists. split; [reflexivity |].
  split.
  { intros t. unfold recent, shifted. rewrite filter_In, Z.leb_le. tauto. }
  set (rs := recent now days (transactions st)).
  set (g := groupby_sum date_type_compare trend_key tx_amount rs).
  assert (Hasc : ascending date_type_compare g)
    by apply ascending_groupby_sum, date_type_total_order.
  split.
  { destruct rs; split; intros H; try reflexivity; discriminate. }
  intros rows Hrows.
  assert (Hr : rows = map trend_row g).
  { destruct rs; [discriminate |]. now injection Hrows as <-. }
  subst rows. split; [| split; [| split; [| split]]].
  - eapply StronglySorted_map; [| exact Hasc]. intros x y H. exact H.
  - eapply StronglySorted_map; [| exact Hasc]. intros x y H.
    now apply date_type_lt_date.
  - intros d k. split.
    + intros [a Ha]. apply in_trend_rows in Ha.
      assert (Hk : In (d, k) (map fst g)).
      { apply in_map_iff. now exists ((d, k), a). }
      apply (keys_groupby_sum _ date_type_total_order) in Hk.
      apply in_map_iff in Hk as [t [Ht Hin]]. unfold trend_key in Ht.
      injection Ht as <- <-. now exists t.
    + intros (t & Hin & <- & <-).
      assert (Hk : In (trend_key t) (map fst g)).
      { apply (keys_groupby_sum _ date_type_total_order).
        now apply in_map. }
      apply in_map_iff in Hk as [[[d k] a] [Hkey Hg]]. cbn [fst] in Hkey.
      unfold trend_key in Hkey. injection Hkey as -> ->.
      exists a. now apply in_trend_rows.
  - intros d k a Ha. apply in_trend_rows in Ha.
    rewrite <- (series_get_groupby_sum _ date_type_total_order).
    fold g. symmetry.
    now apply (ascending_lookup _ date_type_total_order).
  - intros d k t. apply in_group_of_trend.
Qed.

Lemma get_trend_data_lower_bound_only_witness :
  in_datetime_range january_noon 30 = true
  /\ get_trend_data january_noon (get_dataframe january_ledger) 800000
     = Raise OverflowError.
Proof.
  split; [reflexivity |].
  exact (proj2 (proj2 (get_trend_data_lower_bound_only january_noon january_ledger
                         30 eq_refl)) 800000%Z eq_refl).
Defined.

(** * Further properties of the code *)

(** ** The ledger under [add_transaction] *)

Lemma transactions_append_all_numbered (es : list Entry) (st : SessionState) :
  transactions (append_all es st)
  = transactions st ++ numbered (List.length (transactions st)) es.
Proof.
  revert st. induction es as [| e es IH]; intros st; cbn [append_all fold_left numbered].
  - now rewrite app_nil_r.
  - fold (append_all es (append st e)). rewrite IH.
    unfold append, add_transaction. cbn [transactions].
    rewrite length_app, <- app_assoc. cbn [List.length app].
    now replace (List.length (transactions st) + 1) with (S (List.length (transactions st)))
      by lia.
Qed.

Lemma registries_append_all (es : list Entry) (st : SessionState) :
  budgets (append_all es st) = budgets st
  /\ goals (append_all es st) = goals st
  /\ recurring (append_all es st) = recurring st.
Proof.
  revert st. induction es as [| e es IH]; intros st; [now repeat split |].
  cbn [append_all fold_left]. fold (append_all es (append st e)).
  destruct (IH (append st e)) as (Hb & Hg & Hr). now rewrite Hb, Hg, Hr.
Qed.

Lemma numbered_facts (k : nat) (es : list Entry) :
  List.length (numbered k es) = List.length es
  /\ map tx_id (numbered k es) = seq k (List.length es)
  /\ map entry_of (numbered k es) = es.
Proof.
  revert k. induction es as [| e es IH]; intros k; [now repeat split |].
  destruct (IH (S k)) as (Hl & Hi & He). cbn [numbered List.length map seq].
  rewrite Hl, Hi, He. repeat split. unfold entry_of, record_of. cbn.
  now destruct e.
Qed.

(** X1. Appending never rewrites the ledger: after any run of
    [add_transaction] calls the earlier records are where they were, the new
    records are the entries in call order, every id is the position of its
    record (so ids are unique), and the other registries are untouched. *)
Theorem add_transaction_keeps_ids_sequential (es : list Entry) (st : SessionState) :
  sequential_ids (transactions st) ->
  let st' := append_all es st in
  firstn (List.length (transactions st)) (transactions st') = transactions st
  /\ map entry_of (skipn (List.length (transactions st)) (transactions st')) = es
  /\ List.length (transactions st')
     = List.length (transactions st) + List.length es
  /\ sequential_ids (transactions st')
  /\ NoDup (map tx_id (transactions st'))
  /\ (forall i t, nth_error (transactions st') i = Some t -> tx_id t = i)
  /\ budgets st' = budgets st /\ goals st' = goals st
  /\ recurring st' = recurring st.
Proof.
  intros Hseq st'. unfold st'. rewrite transactions_append_all_numbered.
  destruct (numbered_facts (List.length (transactions st)) es) as (Hl & Hi & He).
  assert (Hids : sequential_ids
                   (transactions st
                    ++ numbered (List.length (transactions st)) es)).
  { unfold sequential_ids in *. rewrite map_app, length_app, Hseq, Hi, Hl.
    now rewrite seq_app. }
  split; [| split; [| split; [| split; [| split; [| split]]]]].
  - rewrite firstn_app, Nat.sub_diag, firstn_all. cbn [firstn].
    now rewrite app_nil_r.
  - rewrite skipn_app, Nat.sub_diag, skipn_all. exact He.
  - now rewrite length_app, Hl.
  - exact Hids.
  - unfold sequential_ids in Hids. rewrite Hids. apply seq_NoDup.
  - intros i t Hnth. unfold sequential_ids in Hids.
    pose proof (map_nth_error tx_id _ _ Hnth) as Hm. rewrite Hids in Hm.
    assert (Hlt : i < List.length
                        (transactions st
                         ++ numbered (List.length (transactions st)) es)).
    { apply nth_error_Some. congruence. }
    rewrite (nth_error_nth' _ 0) in Hm by now rewrite length_seq.
    rewrite seq_nth in Hm by exact Hlt. now injection Hm.
  - apply registries_append_all.
Qed.

Lemma add_transaction_keeps_ids_sequential_witness :
  sequential_ids (transactions january_ledger)
  /\ sequential_ids (transactions (append_all scenario january_ledger)).
Proof.
  assert (H : sequential_ids (transactions january_ledger)) by reflexivity.
  split; [exact H |].
  exact (proj1 (proj2 (proj2 (proj2
           (add_transaction_keeps_ids_sequential scenario january_ledger H))))).
Defined.

(** ** Balance under the mutators *)

(** X2. An append changes the balance only through the sequence its type
    names: the amount of an Income entry goes to the end of the income
    sequence, that of an Expense entry to the end of the expense sequence, and
    an entry of any other type changes neither, so the balance is recomputed
    from the same two sequences.  Setting a budget, adding a goal or adding a
    recurring template leaves the balance as it was. *)
Theorem calculate_balance_after_mutators
    (st : SessionState) (e : Entry) (now : DateTime)
    (c m f k n : string) (a : Qc) (d : Date) :
  calculate_balance (append st e)
  = Ok (sum (map tx_amount (filter is_income (transactions st))
             ++ (if String.eqb (entry_type e) "Income" then [entry_amount e]
                 else []))
        - sum (map tx_amount (filter is_expense (transactions st))
               ++ (if String.eqb (entry_type e) "Expense" then [entry_amount e]
                   else [])))%Qc
  /\ calculate_balance st
     = Ok (sum (map tx_amount (filter is_income (transactions st)))
           - sum (map tx_amount (filter is_expense (transactions st))))%Qc
  /\ calculate_balance (add_budget c a m st) = calculate_balance st
  /\ calculate_balance (add_goal now n a d c st) = calculate_balance st
  /\ calculate_balance (add_recurring c a f k st) = calculate_balance st.
Proof.
  rewrite !calculate_balance_eq. unfold add_budget, add_goal, add_recurring.
  cbn [transactions]. repeat split.
  unfold append, add_transaction, total_of. cbn [transactions].
  rewrite !filter_app, !map_app. cbn [filter tx_type]. fold is_income is_expense.
  now destruct (String.eqb (entry_type e) "Income"),
               (String.eqb (entry_type e) "Expense").
Qed.

(** ** Category statistics *)

Lemma unique_In (x : string) (l : list string) : In x (unique l) <-> In x l.
Proof.
  induction l as [| y l IH]; cbn [unique]; [tauto |].
  cbn [In]. rewrite filter_In, IH.
  destruct (String.eqb_spec y x) as [-> | Hne]; cbn [negb]; intuition congruence.
Qed.

Lemma unique_NoDup (l : list string) : NoDup (unique l).
Proof.
  induction l as [| y l IH]; cbn [unique]; constructor.
  - rewrite filter_In. intros [_ H]. now rewrite String.eqb_refl in H.
  - now apply NoDup_filter.
Qed.

Lemma dict_set_fresh {V : Type} (d : dict V) (k : string) (v : V) :
  ~ In k (map fst d) -> dict_set d k v = d ++ [(k, v)].
Proof.
  induction d as [| [k' v'] d IH]; intros H; cbn [dict_set]; [reflexivity |].
  cbn [map fst In] in H. destruct (String.eqb_spec k k') as [-> | Hne].
  - exfalso. apply H. now left.
  - cbn [app]. rewrite IH; [reflexivity |]. intros I. apply H. now right.
Qed.

Lemma for_each_fold {A B : Type} (body : B -> A -> result B) (g : B -> A -> B)
    (xs : list A) (acc : B) :
  (forall acc x, body acc x = Ok (g acc x)) ->
  for_each body xs acc = Ok (fold_left g xs acc).
Proof.
  intros H. revert acc. induction xs as [| x xs IH]; intros acc; [reflexivity |].
  cbn [for_each fold_left]. rewrite H. cbn [bind]. apply IH.
Qed.

Lemma fold_dict_set_fresh {V : Type} (f : string -> V) (ks : list string)
    (d : dict V) :
  NoDup ks -> (forall k, In k ks -> ~ In k (map fst d)) ->
  fold_left (fun acc k => dict_set acc k (f k)) ks d
  = d ++ map (fun k => (k, f k)) ks.
Proof.
  revert d. induction ks as [| k ks IH]; intros d Hnd Hfresh; cbn [fold_left map].
  - now rewrite app_nil_r.
  - apply NoDup_cons_iff in Hnd as [Hk Hnd].
    rewrite dict_set_fresh by (apply Hfresh; now left).
    rewrite IH; [now rewrite <- app_assoc | exact Hnd |].
    intros k' Hin. rewrite map_app, in_app_iff. cbn [map fst In].
    intros [I | [E | []]].
    + exact (Hfresh k' (or_intror Hin) I).
    + subst k'. contradiction.
Qed.

Lemma stats_step_eq (st : SessionState) (stats : dict CategoryStats) (c : string) :
  stats_step (get_dataframe st) stats c
  = Ok (dict_set stats c (stats_of (transactions st) c)).
Proof.
  unfold stats_step. rewrite column_select.
  rewrite !column_get_dataframe by (simpl; tauto). cbn [bind].
  unfold stats_of, rows_of_category, amounts.
  now rewrite rows_select_get_dataframe.
Qed.

Lemma calculate_category_stats_eq (st : SessionState) :
  calculate_category_stats (get_dataframe st)
  = Ok (map (fun c => (c, stats_of (transactions st) c))
          (unique (map tx_category (transactions st)))).
Proof.
  unfold calculate_category_stats. rewrite empty_get_dataframe.
  destruct (transactions st) as [| t l] eqn:E; [reflexivity |].
  rewrite column_get_dataframe by (simpl; tauto). cbn [bind].
  rewrite (for_each_fold _ (fun acc c => dict_set acc c (stats_of (transactions st) c)))
    by apply stats_step_eq.
  rewrite rows_get_dataframe, E.
  rewrite fold_dict_set_fresh; [reflexivity | apply unique_NoDup |].
  intros k _ [].
Qed.

Lemma series_max_spec (l : list Qc) (m : Qc) :
  series_max l = Some m -> In m l /\ forall x, In x l -> (x <= m)%Qc.
Proof.
  destruct l as [| x0 l]; [discriminate |]. cbn [series_max]. intros H.
  injection H as <-.
  assert (G : forall l0 init,
             let r := fold_left (fun m y => if Qcltb m y then y else m) l0 init in
             (r = init \/ In r l0) /\ (init <= r)%Qc
             /\ forall x, In x l0 -> (x <= r)%Qc).
  { induction l0 as [| y l0 IH]; intros init; cbn [fold_left].
    - split; [now left |]. split; [apply Qcle_refl | intros x []].
    - destruct (Qcltb init y) eqn:E.
      + destruct (IH y) as (Hin & Hle & Hall). apply Qcltb_lt in E.
        split; [destruct Hin as [-> | Hin]; right; [now left | now right] |].
        split; [apply Qcle_trans with y; [now apply Qclt_le_weak | exact Hle] |].
        intros x [<- | Hx]; [exact Hle | now apply Hall].
      + destruct (IH init) as (Hin & Hle & Hall). apply Qcltb_ge in E.
        split; [destruct Hin as [-> | Hin]; [now left | right; now right] |].
        split; [exact Hle |].
        intros x [<- | Hx]; [now apply Qcle_trans with init | now apply Hall]. }
  destruct (G l x0) as (Hin & Hle & Hall). split.
  - destruct Hin as [-> | Hin]; [now left | now right].
  - intros x [<- | Hx]; [exact Hle | now apply Hall].
Qed.

Lemma series_min_spec (l : list Qc) (m : Qc) :
  series_min l = Some m -> In m l /\ forall x, In x l -> (m <= x)%Qc.
Proof.
  destruct l as [| x0 l]; [discriminate |]. cbn [series_min]. intros H.
  injection H as <-.
  assert (G : forall l0 init,
             let r := fold_left (fun m y => if Qcltb y m then y else m) l0 init in
             (r = init \/ In r l0) /\ (r <= init)%Qc
             /\ forall x, In x l0 -> (r <= x)%Qc).
  { induction l0 as [| y l0 IH]; intros init; cbn [fold_left].
    - split; [now left |]. split; [apply Qcle_refl | intros x []].
    - destruct (Qcltb y init) eqn:E.
      + destruct (IH y) as (Hin & Hle & Hall). apply Qcltb_lt in E.
        split; [destruct Hin as [-> | Hin]; right; [now left | now right] |].
        split; [apply Qcle_trans with y; [exact Hle | now apply Qclt_le_weak] |].
        intros x [<- | Hx]; [exact Hle | now apply Hall].
      + destruct (IH init) as (Hin & Hle & Hall). apply Qcltb_ge in E.
        split; [destruct Hin as [-> | Hin]; [now left | right; now right] |].
        split; [exact Hle |].
        intros x [<- | Hx]; [now apply Qcle_trans with init | now apply Hall]. }
  destruct (G l x0) as (Hin & Hle & Hall). split.
  - destruct Hin as [-> | Hin]; [now left | now right].
  - intros x [<- | Hx]; [exact Hle | now apply Hall].
Qed.

(** Sums over the groups of a list add up to the sum over the list. *)
Section Partition.
Context {M : Type} (zero : M) (plus : M -> M -> M).
Hypothesis plus_assoc : forall a b c, plus a (plus b c) = plus (plus a b) c.
Hypothesis plus_comm : forall a b, plus a b = plus b a.
Hypothesis plus_zero : forall a, plus zero a = a.
Context {R : Type} (key : R -> string) (w : R -> M).

Lemma msum_zeros (ks : list string) :
  msum zero plus (map (fun _ => zero) ks) = zero.
Proof.
  induction ks as [| k ks IH]; [reflexivity |].
  cbn [map msum fold_right]. fold (msum zero plus (map (fun _ => zero) ks)).
  now rewrite IH, plus_zero.
Qed.

Lemma msum_pointwise (a b : string -> M) (ks : list string) :
  msum zero plus (map (fun k => plus (a k) (b k)) ks)
  = plus (msum zero plus (map a ks)) (msum zero plus (map b ks)).
Proof.
  induction ks as [| k ks IH]; cbn [map msum fold_right].
  - now rewrite plus_zero.
  - fold (msum zero plus (map (fun k => plus (a k) (b k)) ks)).
    fold (msum zero plus (map a ks)). fold (msum zero plus (map b ks)).
    rewrite IH.
    set (x := msum zero plus (map a ks)). set (y := msum zero plus (map b ks)).
    rewrite <- (plus_assoc (a k) x (plus (b k) y)).
    rewrite (plus_assoc x (b k) y), (plus_comm x (b k)).
    rewrite <- (plus_assoc (b k) x y).
    now rewrite (plus_assoc (a k) (b k) (plus x y)).
Qed.

Lemma msum_indicator (x : string) (v : M) (ks : list string) :
  NoDup ks ->
  msum zero plus (map (fun k => if String.eqb x k then v else zero) ks)
  = if existsb (String.eqb x) ks then v else zero.
Proof.
  induction ks as [| k ks IH]; intros Hnd; [reflexivity |].
  apply NoDup_cons_iff in Hnd as [Hk Hnd].
  cbn [map msum fold_right existsb].
  fold (msum zero plus (map (fun k => if String.eqb x k then v else zero) ks)).
  rewrite (IH Hnd). destruct (String.eqb_spec x k) as [-> | Hne]; cbn [orb].
  - destruct (existsb (String.eqb k) ks) eqn:E.
    + apply existsb_exists in E as [y [Hy Hxy]]. apply String.eqb_eq in Hxy.
      subst y. contradiction.
    + now rewrite plus_comm, plus_zero.
  - apply plus_zero.
Qed.

Lemma msum_groups (ks : list string) (l : list R) :
  NoDup ks -> (forall r, In r l -> In (key r) ks) ->
  msum zero plus
    (map (fun k => msum zero plus
                     (map w (filter (fun r => String.eqb (key r) k) l))) ks)
  = msum zero plus (map w l).
Proof.
  intros Hnd. induction l as [| r l IH]; intros Hin.
  - cbn [filter map]. apply msum_zeros.
  - cbn [map msum fold_right]. fold (msum zero plus (map w l)).
    rewrite <- IH by (intros r' Hr'; apply Hin; now right).
    assert (E : existsb (String.eqb (key r)) ks = true).
    { apply existsb_exists. exists (key r).
      split; [apply Hin; now left | apply String.eqb_refl]. }
    pose proof (msum_indicator (key r) (w r) ks Hnd) as Hi. rewrite E in Hi.
    rewrite <- Hi at 1. rewrite <- msum_pointwise. f_equal. apply map_ext.
    intros k. cbn [filter]. destruct (String.eqb (key r) k); [reflexivity |].
    now rewrite plus_zero.
Qed.
End Partition.

Lemma length_as_msum {R : Type} (l : list R) :
  List.length l = msum 0 Nat.add (map (fun _ => 1) l).
Proof.
  induction l as [| x l IH]; [reflexivity |].
  cbn [List.length map msum fold_right]. cbn [Nat.add]. f_equal. exact IH.
Qed.

Lemma in_stats (st : SessionState) (c : string) (s : CategoryStats) :
  In (c, s)
     (map (fun c => (c, stats_of (transactions st) c))
        (unique (map tx_category (transactions st))))
  -> s = stats_of (transactions st) c
     /\ exists t, In t (transactions st) /\ tx_category t = c.
Proof.
  intros H. apply in_map_iff in H as [c' [E Hc]]. injection E as -> <-.
  split; [reflexivity |]. apply unique_In, in_map_iff in Hc as [t [Ht Hin]].
  now exists t.
Qed.

(** X3. [calculate_category_stats] on the ledger frame returns one entry per
    category of the ledger, in order of first appearance.  For each category
    the count is the number of its records (at least one), the total is the
    sum of their amounts whatever their type, the average is that total
    divided by that count, and the maximum and the minimum are amounts of
    records of the category that bound all the others. *)
Theorem calculate_category_stats_per_category (st : SessionState) :
  exists stats,
    calculate_category_stats (get_dataframe st) = Ok stats
    /\ map fst stats = unique (map tx_category (transactions st))
    /\ NoDup (map fst stats)
    /\ (forall c, In c (map fst stats)
                  <-> exists t, In t (transactions st) /\ tx_category t = c)
    /\ (forall c s, In (c, s) stats ->
          let a := map tx_amount (rows_of_category (transactions st) c) in
          1 <= stat_count s
          /\ stat_count s = List.length a
          /\ stat_total s = sum a
          /\ stat_average s
             = Some (stat_total s / of_int (Z.of_nat (stat_count s)))%Qc
          /\ (exists mx, stat_max s = Some mx /\ In mx a
                         /\ forall x, In x a -> (x <= mx)%Qc)
          /\ (exists mn, stat_min s = Some mn /\ In mn a
                         /\ forall x, In x a -> (mn <= x)%Qc)).
Proof.
  rewrite calculate_category_stats_eq. eexists. split; [reflexivity |].
  assert (Hkeys : map fst
                    (map (fun c => (c, stats_of (transactions st) c))
                       (unique (map tx_category (transactions st))))
                  = unique (map tx_category (transactions st))).
  { rewrite map_map. cbn [fst]. apply map_id. }
  split; [exact Hkeys |]. rewrite Hkeys.
  split; [apply unique_NoDup |].
  split.
  { intros c. rewrite unique_In, in_map_iff. split; intros [t H]; exists t; tauto. }
  intros c s Hin a. apply in_stats in Hin as [-> (t & Ht & Hc)].
  assert (Hne : a <> []).
  { assert (I : In (tx_amount t) a).
    { unfold a, rows_of_category. apply in_map, filter_In.
      split; [exact Ht | now apply String.eqb_eq]. }
    intros E. rewrite E in I. contradiction. }
  unfold stats_of. cbn [stat_count stat_total stat_average stat_max stat_min].
  fold a. rewrite <- (length_map tx_amount). fold a.
  split; [destruct a; [contradiction | cbn [List.length]; lia] |].
  split; [reflexivity |]. split; [reflexivity |].
  split; [destruct a; [contradiction | reflexivity] |].
  split.
  - destruct (series_max a) as [mx |] eqn:E.
    + exists mx. split; [reflexivity |]. now apply series_max_spec.
    + destruct a; [contradiction | discriminate].
  - destruct (series_min a) as [mn |] eqn:E.
    + exists mn. split; [reflexivity |]. now apply series_min_spec.
    + destruct a; [contradiction | discriminate].
Qed.

(** X4. The category statistics count every record once: the counts of all
    categories add up to the size of the ledger. *)
Theorem calculate_category_stats_partition (st : SessionState) :
  exists stats,
    calculate_category_stats (get_dataframe st) = Ok stats
    /\ list_sum (map (fun e => stat_count (snd e)) stats)
       = List.length (transactions st).
Proof.
  rewrite calculate_category_stats_eq. eexists. split; [reflexivity |].
  rewrite !map_map. cbn [snd]. unfold stats_of, rows_of_category.
  cbn [stat_count].
  assert (Hin : forall t, In t (transactions st) ->
                  In (tx_category t) (unique (map tx_category (transactions st)))).
  { intros t Ht. apply unique_In. now apply in_map. }
  rewrite (length_as_msum (transactions st)).
  rewrite <- (msum_groups 0 Nat.add Nat.add_assoc Nat.add_comm Nat.add_0_l
                tx_category (fun _ => 1) _ _ (unique_NoDup _) Hin).
  unfold list_sum, msum. f_equal. apply map_ext. intros c.
  apply length_as_msum.
Qed.

(** ** Reading the ledger frame never raises *)

Lemma get_spending_by_category_month_eq (st : SessionState) (m : Period) :
  get_spending_by_category (get_dataframe st) (Some m)
  = Ok (groupby_sum String.compare tx_category tx_amount
          (expenses_in m (transactions st))).
Proof.
  unfold get_spending_by_category, expenses_in.
  rewrite column_get_dataframe by (simpl; tauto). cbn [bind].
  fold is_expense. set (e := select is_expense (get_dataframe st)).
  assert (He : rows e = filter is_expense (transactions st))
    by apply rows_select_get_dataframe.
  rewrite <- He.
  rewrite (empty_rows e) by apply columns_get_dataframe.
  destruct (rows e) as [| t l] eqn:Er; cbn [negb bind].
  - rewrite (empty_rows e) by apply columns_get_dataframe. now rewrite Er.
  - unfold e at 1. rewrite column_select.
    rewrite column_get_dataframe by (simpl; tauto). cbn [bind].
    set (e' := select (fun t0 => period_eqb (to_period (tx_date t0)) m) e).
    assert (He' : rows e' = filter (fun t0 => period_eqb (to_period (tx_date t0)) m)
                              (t :: l)).
    { unfold e', select. cbn [rows]. now rewrite Er. }
    rewrite (empty_rows e') by apply columns_get_dataframe.
    rewrite <- He'. destruct (rows e') eqn:Er'; cbn [negb]; [reflexivity |].
    unfold e', e. rewrite !column_select.
    now rewrite !column_get_dataframe by (simpl; tauto).
Qed.

(** X5. On the frame [get_dataframe] builds, for every session state, the
    balance, the category spending with or without a month, the budget alerts,
    the category statistics and the top transactions all return normally, and
    the only exception the trend can raise is the OverflowError of its date
    arithmetic, on a non-empty ledger with a window that leaves the datetime
    range.  The column labels that [get_dataframe] gives the empty ledger are
    what rules out KeyError: on a frame without columns
    [get_spending_by_category] raises KeyError('type'). *)
Theorem ledger_frame_reads_never_raise
    (now : DateTime) (st : SessionState) (month : option Period)
    (days : Z) (n : nat) :
  (exists v, calculate_balance st = Ok v)
  /\ (exists v, get_spending_by_category (get_dataframe st) month = Ok v)
  /\ (exists v, check_budget_alerts now st (get_dataframe st) = Ok v)
  /\ (forall e, get_trend_data now (get_dataframe st) days = Raise e ->
                e = OverflowError /\ transactions st <> []
                /\ in_datetime_range now days = false)
  /\ (exists v, calculate_category_stats (get_dataframe st) = Ok v)
  /\ (exists v, get_top_transactions (get_dataframe st) n = Ok v)
  /\ (forall rs, get_spending_by_category (mkFrame [] rs) month
                 = Raise (KeyError "type")).
Proof.
  split; [eexists; apply calculate_balance_eq |].
  split.
  { destruct month as [m |]; eexists;
      [apply get_spending_by_category_month_eq | apply get_spending_by_category_eq]. }
  split; [eexists; apply check_budget_alerts_eq |].
  split.
  { intros e. rewrite get_trend_data_eq.
    destruct (transactions st); [discriminate |].
    destruct (in_datetime_range now days); [discriminate |].
    intros H. injection H as <-. repeat split. discriminate. }
  split; [eexists; apply calculate_category_stats_eq |].
  split.
  { destruct (get_top_transactions_eq st n) as (f & Hf & _). now exists f. }
  intros rs. reflexivity.
Qed.

(** ** Spending of one month *)

(** X6. Given a month, [get_spending_by_category] on the ledger frame counts
    the Expense records dated in that month and no others: its keys, in
    ascending order, are their categories, and the value under a category is
    the sum of the amounts of those of them in that category. *)
Theorem get_spending_by_category_of_month (st : SessionState) (m : Period) :
  exists s,
    get_spending_by_category (get_dataframe st) (Some m) = Ok s
    /\ ascending String.compare s
    /\ (forall c, In c (map fst s)
                  <-> exists t, In t (transactions st) /\ tx_type t = "Expense"
                                /\ to_period (tx_date t) = m /\ tx_category t = c)
    /\ (forall c, series_get String.compare s c 0%Qc
                  = category_spending_in m (transactions st) c).
Proof.
  rewrite get_spending_by_category_month_eq. eexists. split; [reflexivity |].
  split; [apply ascending_groupby_sum, string_total_order |].
  split.
  - intros c. rewrite (keys_groupby_sum _ string_total_order), in_map_iff.
    unfold expenses_in.
    assert (P : forall t, period_eqb (to_period (tx_date t)) m = true
                          <-> to_period (tx_date t) = m).
    { intros t. destruct m as [y mo]. unfold period_eqb, to_period. cbn [fst snd].
      rewrite andb_true_iff, !Z.eqb_eq. split; [intros [-> ->]; reflexivity |].
      intros E. now injection E. }
    split.
    + intros (t & Hc & Hin). apply filter_In in Hin as [Hin Hm].
      apply filter_In in Hin as [Hin He]. exists t.
      unfold is_expense in He. apply String.eqb_eq in He. apply P in Hm. tauto.
    + intros (t & Hin & He & Hm & Hc). exists t. split; [exact Hc |].
      apply filter_In. split; [| now apply P].
      apply filter_In. split; [exact Hin |]. unfold is_expense.
      now apply String.eqb_eq.
  - intros c. rewrite (series_get_groupby_sum _ string_total_order).
    rewrite group_of_category. unfold category_spending_in, category_spending,
      expenses_in. now rewrite (filter_swap is_expense).
Qed.

(** ** What the alerts say *)

Lemma Qclt_minus_pos (b s : Qc) : (b < s)%Qc <-> (0 < s - b)%Qc.
Proof. unfold Qcminus. apply Qclt_minus_iff. Qed.

Lemma Qclt_minus_neg (b s : Qc) : (b < s)%Qc <-> (b - s < 0)%Qc.
Proof.
  rewrite (Qclt_minus_iff (b - s) 0). rewrite Qclt_minus_pos.
  replace (0 + - (b - s))%Qc with (s - b)%Qc by ring. tauto.
Qed.

Lemma in_alert_for (txs : list Transaction) (item : string * Qc) (a : Alert) :
  In a (alert_for txs item) ->
  alert_category a = first_piece (fst item)
  /\ alert_budget a = snd item
  /\ alert_spent a = category_spending txs (first_piece (fst item))
  /\ (alert_budget a < alert_spent a)%Qc
  /\ alert_over a = (alert_spent a - alert_budget a)%Qc.
Proof.
  unfold alert_for.
  destruct (Qcltb (snd item) (category_spending txs (first_piece (fst item))))
    eqn:E; [| contradiction].
  intros [<- | []]. cbn. apply Qcltb_lt in E. tauto.
Qed.

Lemma length_flat_map_le {A B : Type} (f : A -> list B) (l : list A) :
  (forall x, List.length (f x) <= 1) ->
  List.length (flat_map f l) <= List.length l.
Proof.
  intros H. induction l as [| x l IH]; [reflexivity |].
  cbn [flat_map]. rewrite length_app. cbn [List.length]. specialize (H x). lia.
Qed.

(** X7. Every alert [check_budget_alerts] returns belongs to a budget entry:
    its category is the first piece of the entry's key, its budget is the
    entry's amount, its spent figure is the Expense total recorded under that
    category and is strictly above the budget, and its overage is their
    positive difference.  There are never more alerts than budget entries. *)
Theorem check_budget_alerts_sound (now : DateTime) (st : SessionState) :
  exists alerts,
    check_budget_alerts now st (get_dataframe st) = Ok alerts
    /\ List.length alerts <= List.length (budgets st)
    /\ (forall a, In a alerts ->
          (exists key, In (key, alert_budget a) (budgets st)
                       /\ alert_category a = first_piece key)
          /\ alert_spent a
             = category_spending (transactions st) (alert_category a)
          /\ (alert_budget a < alert_spent a)%Qc
          /\ alert_over a = (alert_spent a - alert_budget a)%Qc
          /\ (0 < alert_over a)%Qc).
Proof.
  rewrite check_budget_alerts_eq. eexists. split; [reflexivity |]. split.
  - apply length_flat_map_le. intros item. unfold alert_for.
    destruct (Qcltb _ _); cbn [List.length]; lia.
  - intros a Ha. apply in_flat_map in Ha as [[key amount] [Hin Ha]].
    apply in_alert_for in Ha as (Hc & Hb & Hs & Hlt & Ho). cbn [fst snd] in *.
    split; [exists key; split; [now rewrite Hb | exact Hc] |].
    split; [now rewrite Hc |]. split; [exact Hlt |]. split; [exact Ho |].
    rewrite Ho. exact (proj1 (Qclt_minus_pos _ _) Hlt).
Qed.

Lemma category_spending_no_expense (txs : list Transaction) (c : string) :
  filter is_expense txs = [] -> category_spending txs c = 0%Qc.
Proof. unfold category_spending. now intros ->. Qed.

(** X8. As long as the ledger holds no Expense record and no budget is
    negative, [check_budget_alerts] returns no alert. *)
Theorem check_budget_alerts_quiet (now : DateTime) (st : SessionState) :
  filter is_expense (transactions st) = [] ->
  Forall (fun item => (0 <= snd item)%Qc) (budgets st) ->
  check_budget_alerts now st (get_dataframe st) = Ok [].
Proof.
  intros He Hb. rewrite check_budget_alerts_eq. f_equal.
  induction Hb as [| item items Hitem _ IH]; [reflexivity |].
  cbn [flat_map]. rewrite IH, app_nil_r. unfold alert_for.
  rewrite category_spending_no_expense by exact He.
  now rewrite (proj2 (Qcltb_ge _ _) Hitem).
Qed.

Lemma check_budget_alerts_quiet_witness :
  filter is_expense (transactions (add_budget "Food" (of_int 60) "2025-01" income_only))
  = []
  /\ check_budget_alerts january_noon
       (add_budget "Food" (of_int 60) "2025-01" income_only)
       (get_dataframe (add_budget "Food" (of_int 60) "2025-01" income_only))
     = Ok [].
Proof.
  split; [reflexivity |].
  apply check_budget_alerts_quiet; [reflexivity |].
  repeat constructor. cbn [snd]. unfold Qcle, Qle. simpl. lia.
Defined.

(** ** The month of a budget and the clock play no role *)

Lemma alert_for_same (txs : list Transaction) (e1 e2 : string * Qc) :
  same_budget e1 e2 -> alert_for txs e1 = alert_for txs e2.
Proof. intros [Hp Ha]. unfold alert_for. now rewrite Hp, Ha. Qed.

Lemma row_for_same (txs : list Transaction) (e1 e2 : string * Qc) :
  same_budget e1 e2 -> row_for txs e1 = row_for txs e2.
Proof. intros [Hp Ha]. unfold row_for. now rewrite Hp, Ha. Qed.

(** X9. Alerts and overview rows depend on a budget entry only through the
    first piece of its key and its amount.  Two registries whose entries agree
    on those, position by position, give the same alerts and the same overview
    over the same ledger, whatever the months in their keys and whatever the
    clock; in particular a budget set for another month of the same category
    is treated exactly like one set for this month. *)
Theorem budget_month_is_ignored
    (now1 now2 : DateTime) (st1 st2 : SessionState)
    (category month1 month2 : string) (amount : Qc) :
  transactions st1 = transactions st2 ->
  Forall2 same_budget (budgets st1) (budgets st2) ->
  check_budget_alerts now1 st1 (get_dataframe st1)
  = check_budget_alerts now2 st2 (get_dataframe st2)
  /\ budget_overview st1 = budget_overview st2
  /\ same_budget ((category ++ "_" ++ month1)%string, amount)
                 ((category ++ "_" ++ month2)%string, amount).
Proof.
  intros Ht Hb. rewrite !check_budget_alerts_eq, !budget_overview_eq, Ht.
  split; [| split].
  - f_equal. induction Hb as [| e1 e2 l1 l2 He _ IH]; [reflexivity |].
    cbn [flat_map]. now rewrite IH, (alert_for_same _ _ _ He).
  - f_equal. destruct Hb as [| e1 e2 l1 l2 He Hl]; [reflexivity |].
    f_equal. cbn [map]. rewrite (row_for_same _ _ _ He). f_equal.
    induction Hl as [| x y l1 l2 Hxy _ IH]; [reflexivity |].
    cbn [map]. now rewrite IH, (row_for_same _ _ _ Hxy).
  - split; [| reflexivity]. cbn [fst]. now rewrite !first_piece_key.
Qed.

Lemma budget_month_is_ignored_witness :
  transactions (add_budget "Fast" (of_int 50) "2025-01" fast_food_ledger)
  = transactions (add_budget "Fast" (of_int 50) "2031-07" fast_food_ledger)
  /\ check_budget_alerts january_noon
       (add_budget "Fast" (of_int 50) "2025-01" fast_food_ledger)
       (get_dataframe (add_budget "Fast" (of_int 50) "2025-01" fast_food_ledger))
     = check_budget_alerts (mkDateTime (mkDate 2031 7 1) 0)
         (add_budget "Fast" (of_int 50) "2031-07" fast_food_ledger)
         (get_dataframe (add_budget "Fast" (of_int 50) "2031-07" fast_food_ledger)).
Proof.
  split; [reflexivity |].
  apply (budget_month_is_ignored january_noon (mkDateTime (mkDate 2031 7 1) 0)
           (add_budget "Fast" (of_int 50) "2025-01" fast_food_ledger)
           (add_budget "Fast" (of_int 50) "2031-07" fast_food_ledger)
           "Fast" "2025-01" "2031-07" (of_int 50) eq_refl).
  repeat constructor.
Defined.

(** ** Overview and alerts agree *)

Lemma alert_for_overspent (txs : list Transaction) (item : string * Qc) :
  map alert_summary (alert_for txs item)
  = map row_summary (filter overspent [row_for txs item]).
Proof.
  unfold alert_for, row_for, overspent. cbn [filter row_remaining].
  set (s := category_spending txs (first_piece (fst item))).
  destruct (Qcltb (snd item) s) eqn:E.
  - apply Qcltb_lt, Qclt_minus_neg, Qcltb_lt in E. now rewrite E.
  - destruct (Qcltb (snd item - s) 0) eqn:F; [| reflexivity].
    apply Qcltb_lt, Qclt_minus_neg, Qcltb_lt in F. congruence.
Qed.

(** X10. The Budgets page and the alerts tell the same story about the same
    session: the alerts are, in order, the overview rows whose remaining
    amount is negative (same category, budget and spent figure), and in every
    row the remaining amount is the budget minus the spent amount. *)
Theorem alerts_are_overspent_rows (now : DateTime) (st : SessionState) :
  exists alerts rows,
    check_budget_alerts now st (get_dataframe st) = Ok alerts
    /\ budget_overview st
       = Ok (match budgets st with [] => None | _ => Some rows end)
    /\ List.length rows = List.length (budgets st)
    /\ map alert_summary alerts = map row_summary (filter overspent rows)
    /\ (forall r, In r rows -> row_remaining r = (row_budget r - row_spent r)%Qc).
Proof.
  rewrite check_budget_alerts_eq, budget_overview_eq.
  exists (flat_map (alert_for (transactions st)) (budgets st)),
         (map (row_for (transactions st)) (budgets st)).
  split; [reflexivity |]. split; [now destruct (budgets st) |].
  split; [apply length_map |]. split.
  - induction (budgets st) as [| item items IH]; [reflexivity |].
    cbn [flat_map map]. rewrite map_app, IH, alert_for_overspent.
    cbn [filter]. now destruct (overspent (row_for (transactions st) item)).
  - intros r Hr. apply in_map_iff in Hr as [item [<- _]].
    unfold row_for. reflexivity.
Qed.

(** ** Budget keys of distinct pairs *)

Lemma contains_append (ch : ascii) (s1 s2 : string) :
  contains ch (s1 ++ s2) = contains ch s1 || contains ch s2.
Proof.
  induction s1 as [| c s1 IH]; [reflexivity |].
  change (String c s1 ++ s2)%string with (String c (s1 ++ s2)%string).
  cbn [contains]. now rewrite IH, orb_assoc.
Qed.

Lemma string_append_assoc (s1 s2 s3 : string) :
  ((s1 ++ s2) ++ s3)%string = (s1 ++ (s2 ++ s3))%string.
Proof. induction s1 as [| c s1 IH]; cbn; [reflexivity | now rewrite IH]. Qed.

Lemma key_injective (c1 m1 c2 m2 : string) :
  contains "_" m1 = false -> contains "_" m2 = false ->
  (c1 ++ "_" ++ m1)%string = (c2 ++ "_" ++ m2)%string -> c1 = c2 /\ m1 = m2.
Proof.
  intros H1 H2. revert c2. induction c1 as [| x c1 IH]; intros [| y c2] E.
  - cbn in E. injection E as ->. now split.
  - cbn in E. injection E as <- ->. rewrite contains_append in H1.
    cbn in H1. now rewrite orb_true_r in H1.
  - cbn in E. injection E as -> <-. rewrite contains_append in H2.
    cbn in H2. now rewrite orb_true_r in H2.
  - change (String x (c1 ++ "_" ++ m1)%string = String y (c2 ++ "_" ++ m2)%string)
      in E. injection E as -> E. destruct (IH _ E) as [-> ->]. now split.
Qed.

(** X11. Month tokens of the form YYYY-MM hold no underscore, and then the
    key [add_budget] builds tells (category, month) pairs apart: setting the
    budget of one pair leaves the amount stored for every other pair as it
    was.  Without that proviso keys can collide: the pairs
    (p_r, m) and (p, r_m) share one key. *)
Theorem add_budget_keeps_other_pairs
    (st : SessionState) (c1 m1 c2 m2 p r : string) (a : Qc) :
  contains "_" m1 = false -> contains "_" m2 = false ->
  (c1, m1) <> (c2, m2) ->
  dict_lookup (budgets (add_budget c2 a m2 st)) (c1 ++ "_" ++ m1)
  = dict_lookup (budgets st) (c1 ++ "_" ++ m1)
  /\ add_budget (p ++ "_" ++ r) a m1 st = add_budget p a (r ++ "_" ++ m1) st.
Proof.
  intros H1 H2 Hne. split.
  - unfold add_budget. cbn [budgets]. apply dict_lookup_set_other.
    intros E. apply key_injective in E as [-> ->]; [| assumption ..].
    now apply Hne.
  - unfold add_budget. f_equal. f_equal.
    now rewrite string_append_assoc.
Qed.

Lemma add_budget_keeps_other_pairs_witness :
  contains "_" "2025-01" = false
  /\ contains "_" "2025-02" = false
  /\ dict_lookup (budgets (add_budget "Food" (of_int 75) "2025-02" january_ledger))
       "Food_2025-01"
     = dict_lookup (budgets january_ledger) "Food_2025-01".
Proof.
  split; [reflexivity |]. split; [reflexivity |].
  apply (add_budget_keeps_other_pairs january_ledger "Food" "2025-01" "Food"
           "2025-02" "a" "b" (of_int 75) eq_refl eq_refl).
  discriminate.
Defined.

(** ** Order of the budget registry *)

Lemma keys_order_dict_set {V : Type} (d : dict V) (k : string) (v : V) :
  map fst (dict_set d k v)
  = if existsb (String.eqb k) (map fst d) then map fst d else map fst d ++ [k].
Proof.
  induction d as [| [k' v'] d IH]; [reflexivity |].
  cbn [dict_set map fst existsb]. destruct (String.eqb_spec k k') as [-> | Hne].
  - reflexivity.
  - cbn [map fst orb]. rewrite IH. now destruct (existsb _ _).
Qed.

(** X12. [add_budget] keeps the registry in insertion order: a key that is
    already there stays at its position and the registry keeps its length; a
    new key is added last.  Either way the key is present afterwards with the
    amount just set. *)
Theorem add_budget_keeps_insertion_order
    (st : SessionState) (category month : string) (amount : Qc) :
  let key := (category ++ "_" ++ month)%string in
  let st' := add_budget category amount month st in
  map fst (budgets st')
  = (if existsb (String.eqb key) (map fst (budgets st))
     then map fst (budgets st)
     else map fst (budgets st) ++ [key])
  /\ List.length (budgets st')
     = (if existsb (String.eqb key) (map fst (budgets st))
        then List.length (budgets st)
        else S (List.length (budgets st)))
  /\ dict_lookup (budgets st') key = Some amount
  /\ transactions st' = transactions st /\ goals st' = goals st
  /\ recurring st' = recurring st.
Proof.
  intros key st'. unfold st', add_budget. cbn [budgets transactions goals recurring].
  fold key. pose proof (keys_order_dict_set (budgets st) key amount) as Hk.
  split; [exact Hk |]. split.
  - apply (f_equal (@List.length string)) in Hk. rewrite length_map in Hk.
    rewrite Hk. destruct (existsb _ _); rewrite ?length_app, length_map;
      cbn [List.length]; lia.
  - split; [apply dict_lookup_set_same | tauto].
Qed.

(** ** Adding and deleting goals and recurring templates *)

Lemma pop_last {A : Type} (l : list A) (x : A) :
  pop (l ++ [x]) (Z.of_nat (List.length l)) = (Ok x, l)
  /\ pop (l ++ [x]) (-1) = (Ok x, l).
Proof.
  assert (H : pop (l ++ [x]) (Z.of_nat (List.length l)) = (Ok x, l)).
  { destruct (pop_in_range (l ++ [x]) (Z.of_nat (List.length l))) as (y & Hy & Hp).
    - rewrite length_app. cbn [List.length]. lia.
    - rewrite Hp. rewrite Nat2Z.id in *.
      rewrite nth_error_app2, Nat.sub_diag in Hy by lia. injection Hy as <-.
      rewrite firstn_app, Nat.sub_diag, firstn_all. cbn [firstn].
      rewrite skipn_all2 by (rewrite length_app; cbn [List.length]; lia).
      now rewrite !app_nil_r. }
  split; [exact H |].
  rewrite pop_from_end by (rewrite length_app; cbn [List.length]; lia).
  rewrite <- H. f_equal. rewrite length_app. cbn [List.length]. lia.
Qed.

(** X13. Deleting the entry just added undoes the addition: after [add_goal]
    (or [add_recurring]) on a registry of length L, the delete button at
    position L, and likewise [pop(-1)], returns the new record and restores
    the session state exactly. *)
Theorem delete_undoes_add
    (now : DateTime) (st : SessionState) (name category frequency kind : string)
    (amount : Qc) (deadline : Date) :
  let g := mkGoal name amount deadline category (dt_date now) in
  let r := mkRecurring category amount frequency kind true in
  delete_goal (Z.of_nat (List.length (goals st)))
    (add_goal now name amount deadline category st) = (Ok g, st)
  /\ delete_goal (-1) (add_goal now name amount deadline category st) = (Ok g, st)
  /\ delete_rec (Z.of_nat (List.length (recurring st)))
       (add_recurring category amount frequency kind st) = (Ok r, st)
  /\ delete_rec (-1) (add_recurring category amount frequency kind st)
     = (Ok r, st).
Proof.
  intros g r. unfold delete_goal, delete_rec, add_goal, add_recurring.
  cbn [goals recurring transactions budgets]. fold g. fold r.
  destruct (pop_last (goals st) g) as [Hg1 Hg2].
  destruct (pop_last (recurring st) r) as [Hr1 Hr2].
  rewrite Hg1, Hg2, Hr1, Hr2. now rewrite session_eta.
Qed.

(** ** More on the trend *)

Lemma group_add_shape {K : Type} (cmp : K -> K -> comparison) (k : K) (a : Qc)
    (g : Series) :
  group_add cmp k a g <> []
  /\ List.length (group_add cmp k a g) <= S (List.length g).
Proof.
  induction g as [| [k' s] g [_ IH]]; cbn [group_add].
  - split; [discriminate | reflexivity].
  - destruct (cmp k k'); (split; [discriminate |]); cbn [List.length] in *; lia.
Qed.

Lemma groupby_sum_shape {K R : Type} (cmp : K -> K -> comparison)
    (key : R -> K) (val : R -> Qc) (l : list R) :
  List.length (groupby_sum cmp key val l) <= List.length l
  /\ (l <> [] -> groupby_sum cmp key val l <> []).
Proof.
  unfold groupby_sum.
  assert (G : forall g,
             List.length (fold_left (fun g r => group_add cmp (key r) (val r) g) l g)
             <= List.length g + List.length l
             /\ (g <> [] \/ l <> [] ->
                 fold_left (fun g r => group_add cmp (key r) (val r) g) l g <> [])).
  { induction l as [| r l IH]; intros g; cbn [fold_left List.length].
    - split; [lia | intros [H | H]; [exact H | contradiction]].
    - destruct (IH (group_add cmp (key r) (val r) g)) as [Hl Hn].
      destruct (group_add_shape cmp (key r) (val r) g) as [Hne Hle].
      split; [lia | intros _; apply Hn; now left]. }
  destruct (G []) as [Hl Hn]. split; [exact Hl |].
  intros H. apply Hn. now right.
Qed.

Lemma recent_widens (now : DateTime) (days days' : Z) (txs : list Transaction) :
  (days <= days')%Z -> incl (recent now days txs) (recent now days' txs).
Proof.
  intros Hd t Ht. unfold recent in *. apply filter_In in Ht as [Hin Hc].
  apply filter_In. split; [exact Hin |].
  apply Z.leb_le in Hc. apply Z.leb_le. unfold shifted, usec_per_day in *. lia.
Qed.

(** X14. For windows within the datetime range, [get_trend_data] never
    returns an empty table (the no-data value is its only empty answer): when
    it returns rows there is at least one and at most one per kept record.  A
    wider window keeps every record a narrower one keeps, so if the wider
    window has no data the narrower has none either. *)
Theorem get_trend_data_accounts_for_kept_records
    (now : DateTime) (st : SessionState) (days days' : Z) :
  (days <= days')%Z ->
  in_datetime_range now days = true ->
  in_datetime_range now days' = true ->
  (exists result,
     get_trend_data now (get_dataframe st) days = Ok result
     /\ result <> Some []
     /\ (forall rows, result = Some rows ->
           1 <= List.length rows
           /\ List.length rows <= List.length (recent now days (transactions st))))
  /\ incl (recent now days (transactions st)) (recent now days' (transactions st))
  /\ (get_trend_data now (get_dataframe st) days' = Ok None ->
      get_trend_data now (get_dataframe st) days = Ok None).
Proof.
  intros Hd Hr Hr'. rewrite !get_trend_data_in_range by assumption.
  pose proof (recent_widens now days days' (transactions st) Hd) as Hincl.
  split; [| split; [exact Hincl |]].
  - eexists. split; [reflexivity |].
    set (rs := recent now days (transactions st)).
    destruct (groupby_sum_shape date_type_compare trend_key tx_amount rs)
      as [Hlen Hne].
    split.
    + destruct rs as [| t l]; [discriminate |]. intros E. injection E as E.
      apply map_eq_nil in E. now apply Hne in E.
    + intros rows Hrows. destruct rs as [| t l] eqn:Ers; [discriminate |].
      injection Hrows as <-. rewrite length_map. split.
      * destruct (groupby_sum date_type_compare trend_key tx_amount (t :: l));
          [now exfalso; apply Hne | cbn [List.length]; lia].
      * exact Hlen.
  - destruct (recent now days' (transactions st)) eqn:E'; [| discriminate].
    intros _. destruct (recent now days (transactions st)) as [| t l] eqn:E;
      [reflexivity |].
    exfalso. apply (Hincl t). now left.
Qed.

Lemma get_trend_data_accounts_for_kept_records_witness :
  (7 <= 30)%Z
  /\ in_datetime_range january_noon 7 = true
  /\ in_datetime_range january_noon 30 = true
  /\ incl (recent january_noon 7 (transactions january_ledger))
          (recent january_noon 30 (transactions january_ledger)).
Proof.
  assert (H : (7 <= 30)%Z) by lia.
  split; [exact H |]. split; [reflexivity |]. split; [reflexivity |].
  exact (proj1 (proj2 (get_trend_data_accounts_for_kept_records
                         january_noon january_ledger 7 30 H eq_refl eq_refl))).
Defined.

(** ** More on the largest transactions *)

Lemma firstn_firstn_le {A : Type} (n k : nat) (l : list A) :
  firstn n (firstn (n + k) l) = firstn n l.
Proof. rewrite firstn_firstn. f_equal. lia. Qed.

(** X15. For a non-empty ledger and n >= 1 the first row of
    [get_top_transactions] shows a record of the ledger, and the amount in
    that row is the largest of all; asking for more rows only extends the
    answer (the answer for n is the first n rows of the answer for n + k); and
    asking for at least as many rows as the ledger holds shows every record
    once. *)
Theorem get_top_transactions_head_is_largest
    (st : SessionState) (n k : nat) :
  transactions st <> [] -> 1 <= n ->
  exists f f',
    get_top_transactions (get_dataframe st) n = Ok f
    /\ get_top_transactions (get_dataframe st) (n + k) = Ok f'
    /\ (exists r rest t,
          top_rows f = r :: rest
          /\ shows r t
          /\ In t (transactions st)
          /\ forall u, In u (transactions st) -> (tx_amount u <= top_amount r)%Qc)
    /\ top_rows f = firstn n (top_rows f')
    /\ (List.length (transactions st) <= n ->
        exists l, Permutation l (transactions st) /\ Forall2 shows (top_rows f) l).
Proof.
  intros Hne Hn.
  destruct (get_top_transactions_eq st n) as (f & Hf & Hrows).
  destruct (get_top_transactions_eq st (n + k)) as (f' & Hf' & Hrows').
  exists f, f'. split; [exact Hf |]. split; [exact Hf' |].
  pose proof (sort_desc_perm (transactions st)) as Hperm.
  pose proof (sort_desc_descending (transactions st)) as Hdesc.
  rewrite Hrows, Hrows'. split; [| split].
  - destruct (sort_desc (transactions st)) as [| t l] eqn:E.
    + apply Permutation_nil in Hperm. congruence.
    + destruct n as [| n]; [lia |]. cbn [firstn map].
      exists (project_top t), (map project_top (firstn n l)), t.
      split; [reflexivity |].
      split; [unfold shows, project_top; cbn; repeat split |].
      split; [apply (Permutation_in _ Hperm); now left |].
      intros u Hu. apply (Permutation_in _ (Permutation_sym Hperm)) in Hu.
      change (top_amount (project_top t)) with (tx_amount t).
      destruct Hu as [<- | Hu]; [apply Qcle_refl |].
      unfold descending in Hdesc. apply StronglySorted_inv in Hdesc as [_ Hall].
      rewrite Forall_forall in Hall. now apply Hall.
  - rewrite <- firstn_map, <- firstn_map. now rewrite firstn_firstn_le.
  - intros Hlen. exists (sort_desc (transactions st)). split; [exact Hperm |].
    rewrite firstn_all2 by now rewrite (Permutation_length Hperm).
    apply shows_project_top.
Qed.

Lemma get_top_transactions_head_is_largest_witness :
  transactions january_ledger <> []
  /\ 1 <= 2
  /\ exists f f',
       get_top_transactions (get_dataframe january_ledger) 2 = Ok f
       /\ get_top_transactions (get_dataframe january_ledger) (2 + 1) = Ok f'
       /\ (exists r rest t,
             top_rows f = r :: rest
             /\ shows r t
             /\ In t (transactions january_ledger)
             /\ forall u, In u (transactions january_ledger) ->
                          (tx_amount u <= top_amount r)%Qc)
       /\ top_rows f = firstn 2 (top_rows f')
       /\ (List.length (transactions january_ledger) <= 2 ->
           exists l, Permutation l (transactions january_ledger)
                     /\ Forall2 shows (top_rows f) l).
Proof.
  assert (H1 : transactions january_ledger <> []) by discriminate.
  assert (H2 : 1 <= 2) by lia.
  split; [exact H1 |]. split; [exact H2 |].
  exact (get_top_transactions_head_is_largest january_ledger 2 1 H1 H2).
Defined.

(** ** The Dashboard metrics *)

(** X16. The four Dashboard metrics are computed without raising: income and
    expenses are the sums of the amounts of the Income and of the Expense
    records, the balance shown is the income shown minus the expenses shown,
    and the average is the sum of all amounts, of whatever type, divided by
    the number of records (0 for the empty ledger). *)
Theorem dashboard_metrics_consistent (st : SessionState) :
  exists m,
    dashboard_metrics st = Ok m
    /\ metric_income m = total_of "Income" (transactions st)
    /\ metric_expenses m = total_of "Expense" (transactions st)
    /\ metric_balance m = (metric_income m - metric_expenses m)%Qc
    /\ metric_avg m
       = Some (match transactions st with
               | [] => 0
               | _ :: _ => sum (map tx_amount (transactions st))
                           / of_int (Z.of_nat (List.length (transactions st)))
               end)%Qc.
Proof.
  unfold dashboard_metrics. rewrite calculate_balance_eq, empty_get_dataframe.
  cbn [bind]. destruct (transactions st) as [| t l] eqn:E; cbn [negb bind].
  - eexists.
    cbn [metric_income metric_expenses metric_balance metric_avg].
    repeat split.
  - rewrite !sum_of_type_get_dataframe. cbn [bind].
    rewrite column_get_dataframe by (simpl; tauto). cbn [bind].
    unfold amounts. rewrite rows_get_dataframe, E.
    eexists.
    cbn [metric_income metric_expenses metric_balance metric_avg].
    split; [reflexivity |]. split; [reflexivity |]. split; [reflexivity |].
    split; [reflexivity |].
    unfold series_mean. cbn [map List.length]. now rewrite ?length_map.
Qed.

(** ** The Analytics range *)

Lemma earlier_bounds (d1 d2 : Date) :
  (timestamp (to_datetime (earlier d1 d2)) <= timestamp (to_datetime d1))%Z
  /\ (timestamp (to_datetime (earlier d1 d2)) <= timestamp (to_datetime d2))%Z.
Proof.
  unfold earlier.
  destruct (Z.ltb_spec (timestamp (to_datetime d2)) (timestamp (to_datetime d1)));
    lia.
Qed.

Lemma later_bounds (d1 d2 : Date) :
  (timestamp (to_datetime d1) <= timestamp (to_datetime (later d1 d2)))%Z
  /\ (timestamp (to_datetime d2) <= timestamp (to_datetime (later d1 d2)))%Z.
Proof.
  unfold later.
  destruct (Z.ltb_spec (timestamp (to_datetime d1)) (timestamp (to_datetime d2)));
    lia.
Qed.

Lemma fold_earlier_bounds (l : list Date) (init : Date) :
  (timestamp (to_datetime (fold_left earlier l init))
   <= timestamp (to_datetime init))%Z
  /\ forall d, In d l ->
       (timestamp (to_datetime (fold_left earlier l init))
        <= timestamp (to_datetime d))%Z.
Proof.
  revert init. induction l as [| x l IH]; intros init; cbn [fold_left].
  - split; [lia | intros d []].
  - destruct (IH (earlier init x)) as [Hi Hall].
    destruct (earlier_bounds init x) as [He1 He2].
    split; [lia |]. intros d [<- | Hd]; [lia | now apply Hall].
Qed.

Lemma fold_later_bounds (l : list Date) (init : Date) :
  (timestamp (to_datetime init)
   <= timestamp (to_datetime (fold_left later l init)))%Z
  /\ forall d, In d l ->
       (timestamp (to_datetime d)
        <= timestamp (to_datetime (fold_left later l init)))%Z.
Proof.
  revert init. induction l as [| x l IH]; intros init; cbn [fold_left].
  - split; [lia | intros d []].
  - destruct (IH (later init x)) as [Hi Hall].
    destruct (later_bounds init x) as [He1 He2].
    split; [lia |]. intros d [<- | Hd]; [lia | now apply Hall].
Qed.

Lemma sum_of_type_select (p : Transaction -> bool) (st : SessionState)
    (kind : string) :
  sum_of_type (select p (get_dataframe st)) kind
  = Ok (total_of kind (filter p (transactions st))).
Proof.
  unfold sum_of_type. rewrite !column_select.
  rewrite !column_get_dataframe by (simpl; tauto). cbn [bind].
  unfold amounts, total_of, select. cbn [rows]. now rewrite rows_get_dataframe.
Qed.

Lemma analytics_totals_eq (st : SessionState) (start_date end_date : Date) :
  analytics_totals st start_date end_date
  = Ok (match filter (in_range start_date end_date) (transactions st) with
        | [] => None
        | l => Some (mkRangeTotals (total_of "Expense" l) (total_of "Income" l)
                                   (net_of l))
        end).
Proof.
  unfold analytics_totals. rewrite empty_get_dataframe.
  destruct (transactions st) as [| t l] eqn:E; [reflexivity |]. cbn [negb].
  rewrite column_get_dataframe by (simpl; tauto). cbn [bind].
  rewrite empty_select_get_dataframe, !sum_of_type_select, E.
  now destruct (filter (in_range start_date end_date) (t :: l)).
Qed.

Lemma filter_all {A : Type} (p : A -> bool) (l : list A) :
  (forall x, In x l -> p x = true) -> filter p l = l.
Proof.
  induction l as [| x l IH]; intros H; [reflexivity |]. cbn [filter].
  rewrite (H x) by now left. f_equal. apply IH. intros y Hy. apply H. now right.
Qed.

(** X17. With the date inputs left at the values the Analytics page gives
    them (the earliest and the latest date of the ledger) the range holds the
    whole ledger: the page shows the total of all expenses, the total of all
    income, and a net figure equal to the Dashboard balance.  For any chosen
    range the page computes its figures without raising, from the records
    dated within the range only, and shows none when the range holds no
    record. *)
Theorem analytics_default_range_covers_ledger
    (st : SessionState) (start_date end_date : Date) :
  transactions st <> [] ->
  (exists first last totals,
     default_range st = Ok (Some (first, last))
     /\ analytics_totals st first last = Ok (Some totals)
     /\ total_spent totals = total_of "Expense" (transactions st)
     /\ total_earned totals = total_of "Income" (transactions st)
     /\ calculate_balance st = Ok (net totals))
  /\ analytics_totals st start_date end_date
     = Ok (match filter (in_range start_date end_date) (transactions st) with
           | [] => None
           | l => Some (mkRangeTotals (total_of "Expense" l) (total_of "Income" l)
                          (total_of "Income" l - total_of "Expense" l)%Qc)
           end).
Proof.
  intros Hne. split; [| apply analytics_totals_eq].
  unfold default_range. rewrite empty_get_dataframe, rows_get_dataframe.
  destruct (transactions st) as [| t l] eqn:E; [contradiction |]. cbn [negb].
  rewrite column_get_dataframe by (simpl; tauto). cbn [bind map date_min date_max].
  set (first := fold_left earlier (map tx_date l) (tx_date t)).
  set (last := fold_left later (map tx_date l) (tx_date t)).
  destruct (fold_earlier_bounds (map tx_date l) (tx_date t)) as [Hf0 Hf].
  destruct (fold_later_bounds (map tx_date l) (tx_date t)) as [Hl0 Hl].
  fold first in Hf0, Hf. fold last in Hl0, Hl.
  assert (Hall : filter (in_range first last) (t :: l) = t :: l).
  { apply filter_all. intros x Hx. unfold in_range.
    apply andb_true_iff. rewrite !Z.leb_le.
    destruct Hx as [<- | Hx]; [split; assumption |].
    split; [apply Hf | apply Hl]; now apply in_map. }
  exists first, last. eexists. split; [reflexivity |].
  rewrite analytics_totals_eq, E, Hall. split; [reflexivity |].
  cbn [total_spent total_earned net]. rewrite calculate_balance_eq, E.
  repeat split.
Qed.

Lemma analytics_default_range_covers_ledger_witness :
  transactions january_ledger <> []
  /\ exists first last totals,
       default_range january_ledger = Ok (Some (first, last))
       /\ analytics_totals january_ledger first last = Ok (Some totals)
       /\ total_spent totals = total_of "Expense" (transactions january_ledger)
       /\ total_earned totals = total_of "Income" (transactions january_ledger)
       /\ calculate_balance january_ledger = Ok (net totals).
Proof.
  assert (H : transactions january_ledger <> []) by discriminate.
  split; [exact H |].
  exact (proj1 (analytics_default_range_covers_ledger january_ledger
                  (jan 1) (jan 31) H)).
Defined.

(** ** Days left on a goal *)






(** ** Totals by type and by weekday *)

Example weekdays_of_known_dates :
  day_name (jan 20) = "Monday" /\ day_name (mkDate 2024 12 15) = "Sunday"
  /\ day_name (mkDate 2024 2 29) = "Thursday" /\ day_name (mkDate 2000 1 1) = "Saturday".
Proof. repeat split. Qed.

Lemma group_of_type (kind : string) (l : list Transaction) :
  group_of String.compare tx_type kind l
  = filter (fun t => String.eqb (tx_type t) kind) l.
Proof. unfold group_of. apply filter_ext. intros t. apply compare_eqb. Qed.

(** X20. The Income-vs-Expenses chart of the Dashboard is computed without
    raising: on a non-empty ledger it has one bar per type string occurring in
    the ledger, in ascending order of the type, and the bar of a type is the
    sum of the amounts of the records of that type (0 standing for a missing
    bar). *)
Theorem income_vs_expenses_one_bar_per_type (st : SessionState) :
  transactions st <> [] ->
  exists bars,
    income_vs_expenses st = Ok (Some bars)
    /\ ascending String.compare bars
    /\ (forall k, In k (map fst bars) <-> In k (map tx_type (transactions st)))
    /\ (forall k, series_get String.compare bars k 0%Qc
                  = total_of k (transactions st)).
Proof.
  intros Hne. unfold income_vs_expenses.
  rewrite empty_get_dataframe, rows_get_dataframe.
  destruct (transactions st) as [| t l] eqn:E; [contradiction |]. cbn [negb].
  rewrite !column_get_dataframe by (simpl; tauto). cbn [bind].
  eexists. split; [reflexivity |].
  split; [apply ascending_groupby_sum, string_total_order |].
  split; [intros k; apply keys_groupby_sum, string_total_order |].
  intros k. rewrite (series_get_groupby_sum _ string_total_order).
  now rewrite group_of_type.
Qed.

Lemma income_vs_expenses_one_bar_per_type_witness :
  transactions january_ledger <> []
  /\ exists bars,
       income_vs_expenses january_ledger = Ok (Some bars)
       /\ ascending String.compare bars
       /\ (forall k, In k (map fst bars)
                     <-> In k (map tx_type (transactions january_ledger)))
       /\ (forall k, series_get String.compare bars k 0%Qc
                     = total_of k (transactions january_ledger)).
Proof.
  assert (H : transactions january_ledger <> []) by discriminate.
  split; [exact H |].
  exact (income_vs_expenses_one_bar_per_type january_ledger H).
Defined.

Lemma day_name_in_names (d : Date) : In (day_name d) day_names.
Proof.
  unfold day_name. apply nth_In.
  pose proof (Z.mod_pos_bound (toordinal d + 6) 7 eq_refl).
  change (List.length day_names) with 7. lia.
Qed.

(** X21. The weekday chart of the Insights page is computed without raising:
    on a non-empty ledger its bars are keyed, in ascending order, by the names
    of the weekdays on which the ledger has an Expense record (so there are at
    most seven), and the bar of a weekday is the sum of the amounts of the
    Expense records dated on that weekday. *)
Theorem dow_spending_one_bar_per_weekday (st : SessionState) :
  transactions st <> [] ->
  exists bars,
    dow_spending st = Ok (Some bars)
    /\ ascending String.compare bars
    /\ List.length bars <= 7
    /\ (forall k, In k (map fst bars)
                  <-> exists t, In t (transactions st) /\ tx_type t = "Expense"
                                /\ day_name (tx_date t) = k)
    /\ (forall k, series_get String.compare bars k 0%Qc
                  = sum (map tx_amount
                           (filter (fun t => String.eqb (day_name (tx_date t)) k)
                              (filter is_expense (transactions st))))).
Proof.
  intros Hne. unfold dow_spending.
  rewrite empty_get_dataframe.
  destruct (transactions st) as [| t l] eqn:E; [contradiction |]. cbn [negb].
  rewrite column_select, !column_get_dataframe by (simpl; tauto). cbn [bind].
  rewrite rows_select_get_dataframe, E. fold is_expense.
  set (ex := filter is_expense (t :: l)).
  set (bars := groupby_sum String.compare (fun t0 => day_name (tx_date t0))
                 tx_amount ex).
  assert (Hasc : ascending String.compare bars)
    by apply ascending_groupby_sum, string_total_order.
  assert (Hkeys : forall k, In k (map fst bars)
                            <-> In k (map (fun t0 => day_name (tx_date t0)) ex))
    by (intros k; apply keys_groupby_sum, string_total_order).
  exists bars. split; [reflexivity |]. split; [exact Hasc |].
  split; [| split].
  - rewrite <- (length_map fst).
    change 7 with (List.length day_names). apply NoDup_incl_length.
    + assert (G : forall g : Series (K := string),
                    ascending String.compare g -> NoDup (map fst g)).
      { induction g as [| [k s] g IH]; intros Hs; [constructor |].
        apply StronglySorted_inv in Hs as [Hg Hall]. cbn [map fst].
        constructor; [| now apply IH].
        intros Hin. apply in_map_iff in Hin as [[k' s'] [Hk Hin]].
        cbn [fst] in Hk. subst k'. rewrite Forall_forall in Hall.
        specialize (Hall _ Hin). cbn [fst] in Hall.
        rewrite (cmp_refl String.compare k string_total_order) in Hall.
        discriminate. }
      now apply G.
    + intros k Hk. apply Hkeys, in_map_iff in Hk as [t0 [<- _]].
      apply day_name_in_names.
  - intros k. rewrite Hkeys, in_map_iff. unfold ex. split.
    + intros (t0 & Hk & Hin). apply filter_In in Hin as [Hin He].
      exists t0. unfold is_expense in He. apply String.eqb_eq in He. tauto.
    + intros (t0 & Hin & He & Hk). exists t0. split; [exact Hk |].
      apply filter_In. split; [exact Hin |]. now apply String.eqb_eq.
  - intros k. unfold bars.
    rewrite (series_get_groupby_sum _ string_total_order). unfold group_of.
    f_equal. f_equal. apply filter_ext. intros t0. apply compare_eqb.
Qed.

Lemma dow_spending_one_bar_per_weekday_witness :
  transactions january_ledger <> []
  /\ exists bars,
       dow_spending january_ledger = Ok (Some bars)
       /\ List.length bars <= 7
       /\ (forall k, series_get String.compare bars k 0%Qc
                     = sum (map tx_amount
                              (filter (fun t => String.eqb (day_name (tx_date t)) k)
                                 (filter is_expense (transactions january_ledger))))).
Proof.
  assert (H : transactions january_ledger <> []) by discriminate.
  split; [exact H |].
  destruct (dow_spending_one_bar_per_weekday january_ledger H)
    as (bars & Hb & _ & Hl & _ & Hs).
  exists bars. split; [exact Hb |]. split; [exact Hl | exact Hs].
Defined.


(** * Sums with the rounding of the machine *)

Import Floats.

(** ** Grouped Kahan sums *)

Section Binary64GroupFacts.
Context {K : Type} (cmp : K -> K -> comparison).
Hypothesis order : total_order cmp.







Section Rows.
Context {R : Type} (key : R -> K) (val : R -> float).

Let step (g : list (K * (float * float))) (r : R) :=
  Binary64.group_add cmp (key r) (val r) g.


End Rows.
End Binary64GroupFacts.

(** ** The ledger frame, amounts in binary64 *)






(** ** Balance in binary64 *)

Example b64_balances :
  Binary64.calculate_balance Binary64.three_incomes = Ok 0.60000000000000009%float
  /\ Binary64.calculate_balance (rev Binary64.three_incomes)
     = Ok 0.59999999999999998%float.
Proof. split; reflexivity. Qed.




(** ** Spending by category in binary64 *)





